(** * template_utils.py: template extraction utilities

    A shallow embedding of [template_utils.py] and of the parts of the Python
    standard library it calls ([str] methods, [re], [xml.etree.ElementTree]),
    followed by theorems about the extractors.

    Text model.  A Python [str] is modelled by a Rocq [string] holding ASCII
    text: [str.lower] and [re.IGNORECASE] fold the letters A-Z only, and a
    byte above 127 is carried through unchanged by every operation. *)

From Stdlib Require Import String Ascii List Bool Arith Lia ZArith DecimalString.
Import ListNotations.
Open Scope list_scope.
Open Scope string_scope.

Set Warnings "-register-all".

(** ** Python [str] primitives *)

Module PyStr.

(** [c.lower()] on one ASCII character. *)
Definition lower_char (c : ascii) : ascii :=
  let n := nat_of_ascii c in
  if ((65 <=? n) && (n <=? 90))%nat then ascii_of_nat (n + 32) else c.

(** [s.lower()] *)
Fixpoint lower (s : string) : string :=
  match s with
  | EmptyString => EmptyString
  | String c s' => String (lower_char c) (lower s')
  end.

(** [c.isspace()]: tab, line feed, vertical tab, form feed, carriage return,
    the four separators 0x1c-0x1f and the space. *)
Definition isspace (c : ascii) : bool :=
  let n := nat_of_ascii c in
  (((9 <=? n) && (n <=? 13)) || ((28 <=? n) && (n <=? 31)) || (n =? 32))%nat.

(** [all(p(c) for c in s)] *)
Fixpoint all_chars (p : ascii -> bool) (s : string) : bool :=
  match s with
  | EmptyString => true
  | String c s' => p c && all_chars p s'
  end.

(** [s.lstrip()] *)
Fixpoint lstrip (s : string) : string :=
  match s with
  | EmptyString => EmptyString
  | String c s' => if isspace c then lstrip s' else s
  end.

(** [s.rstrip()] *)
Fixpoint rstrip (s : string) : string :=
  match s with
  | EmptyString => EmptyString
  | String c s' =>
      match rstrip s' with
      | EmptyString => if isspace c then EmptyString else String c EmptyString
      | r => String c r
      end
  end.

(** [s.strip()] *)
Definition strip (s : string) : string := rstrip (lstrip s).

(** [s.startswith(p)] *)
Fixpoint startswith (p s : string) : bool :=
  match p, s with
  | EmptyString, _ => true
  | String a p', String b s' => Ascii.eqb a b && startswith p' s'
  | String _ _, EmptyString => false
  end.

(** [s.find(p)]: the lowest index at which [p] occurs in [s], [None] for
    Python's -1. *)
Fixpoint find (p s : string) : option nat :=
  if startswith p s then Some 0
  else match s with
       | EmptyString => None
       | String _ s' => option_map S (find p s')
       end.

(** [p in s] *)
Definition contains (p s : string) : bool :=
  match find p s with Some _ => true | None => false end.

(** [s[n:]] for a non-negative [n]. *)
Fixpoint drop (n : nat) (s : string) : string :=
  match n, s with
  | 0, _ => s
  | S _, EmptyString => EmptyString
  | S k, String _ s' => drop k s'
  end.

(** [s[:n]] for a non-negative [n]. *)
Fixpoint take (n : nat) (s : string) : string :=
  match n, s with
  | 0, _ => EmptyString
  | S _, EmptyString => EmptyString
  | S k, String c s' => String c (take k s')
  end.

(** [s[-1:]]: the last character, or the empty string. *)
Definition last_char (s : string) : string := drop (String.length s - 1) s.

(** [s[s.lower().find(marker):]], the slice both tree extractors take: from
    the marker when it is found, and from index -1 when [find] returns -1. *)
Definition slice_from_find (marker s : string) : string :=
  match find marker (lower s) with
  | Some i => drop i s
  | None => last_char s
  end.

(** [sep.join(l)] *)
Fixpoint join (sep : string) (l : list string) : string :=
  match l with
  | [] => EmptyString
  | [x] => x
  | x :: l' => x ++ sep ++ join sep l'
  end.

(** [str(n)] for a non-negative integer, as an f-string prints [{i}]. *)
Definition of_nat (n : nat) : string := NilZero.string_of_uint (Nat.to_uint n).

(** [str(z)] for an integer. *)
Definition of_Z (z : Z) : string := NilZero.string_of_int (Z.to_int z).

(** The line feed character and the two quote characters. *)
Definition LF : string := String (ascii_of_nat 10) EmptyString.
Definition DQ : ascii := ascii_of_nat 34.
Definition SQ : ascii := ascii_of_nat 39.

End PyStr.

(** ** The fragment of Python's [re] the module uses

    The patterns of [template_utils.py] are built from literal text, a
    repeated character class ([\s*], [\s+], [[^>]+], and the lazy [.*?] under
    [re.DOTALL]), capturing groups and the optional non-capturing group
    [(?:...)?].  [re] is a backtracking matcher: the model lists every way a
    pattern can match at a position, in the order in which the matcher tries
    them, so that the first element is the match [re] reports. *)

Module Re.
Import PyStr.

Inductive cclass : Type :=
| AnyChar                 (* [.] under re.DOTALL *)
| Space                   (* [\s] *)
| NotChar (c : ascii).    (* [[^c]] *)

Definition in_class (k : cclass) (c : ascii) : bool :=
  match k with
  | AnyChar => true
  | Space => isspace c
  | NotChar x => negb (Ascii.eqb x c)
  end.

Inductive regex : Type :=
| Lit (l : string)                            (* literal text *)
| Rep (k : cclass) (min : nat) (greedy : bool) (* k* , k+ , k*? *)
| Group (n : nat) (r : regex)                 (* capturing group number n *)
| Opt (r : regex)                             (* (?:r)? *)
| Seq (r1 r2 : regex).

Declare Scope regex_scope.
Delimit Scope regex_scope with re.
Bind Scope regex_scope with regex.
Infix ">>" := Seq (at level 60, right associativity) : regex_scope.

(** The groups that took part in a match, most recent binding first. *)
Definition groups : Type := list (nat * string).

Fixpoint group (g : groups) (n : nat) : option string :=
  match g with
  | [] => None
  | (m, v) :: g' => if Nat.eqb m n then Some v else group g' n
  end.

(** Case folding of the pattern and the subject under [re.IGNORECASE]. *)
Definition fold (icase : bool) (s : string) : string :=
  if icase then lower s else s.

(** The suffixes left after a run of 0, 1, 2, ... characters of class [k]. *)
Fixpoint spans (k : cclass) (s : string) : list string :=
  s :: match s with
       | String c s' => if in_class k c then spans k s' else []
       | EmptyString => []
       end.

(** [run icase r s g]: every match of [r] at the head of [s], as the pair of
    the text left over and the groups, in the matcher's order of preference. *)
Fixpoint run (icase : bool) (r : regex) (s : string) (g : groups)
  : list (string * groups) :=
  match r with
  | Lit l =>
      if startswith (fold icase l) (fold icase s)
      then [(drop (String.length l) s, g)] else []
  | Rep k min greedy =>
      let cands := skipn min (spans k s) in
      map (fun s' => (s', g)) (if greedy then rev cands else cands)
  | Group n r' =>
      map (fun m => (fst m, (n, take (String.length s - String.length (fst m)) s) :: snd m))
          (run icase r' s g)
  | Opt r' => run icase r' s g ++ [(s, g)]
  | Seq r1 r2 => flat_map (fun m => run icase r2 (fst m) (snd m)) (run icase r1 s g)
  end.

(** A match object: where the match starts, the text after it, its groups. *)
Record match_object : Type := MatchObject {
  m_start : nat;
  m_rest : string;
  m_groups : groups
}.

(** [m.group(n)] *)
Definition m_group (m : match_object) (n : nat) : option string :=
  group (m_groups m) n.

Fixpoint search_from (icase : bool) (r : regex) (s : string) (pos : nat)
  : option match_object :=
  match run icase r s [] with
  | (rest, g) :: _ => Some (MatchObject pos rest g)
  | [] =>
      match s with
      | EmptyString => None
      | String _ s' => search_from icase r s' (S pos)
      end
  end.

(** [re.search(r, s, flags)]: the match at the leftmost position that has
    one. *)
Definition search (icase : bool) (r : regex) (s : string) : option match_object :=
  search_from icase r s 0.

(** [re.sub(r, repl, s)] for a pattern that matches no empty string, as both
    patterns of [clean_template_tags] are: scanning from the left, a match is
    replaced and the scan resumes after it; [skip] counts the characters of
    the current match still to pass over. *)
Fixpoint sub_from (r : regex) (repl : string) (s : string) (skip : nat) : string :=
  match s with
  | EmptyString => EmptyString
  | String c s' =>
      match skip with
      | S k => sub_from r repl s' k
      | 0 =>
          match run false r s [] with
          | (rest, _) :: _ =>
              match String.length s - String.length rest with
              | 0 => String c (sub_from r repl s' 0)
              | S k => repl ++ sub_from r repl s' k
              end
          | [] => String c (sub_from r repl s' 0)
          end
      end
  end.

Definition sub (r : regex) (repl : string) (s : string) : string :=
  sub_from r repl s 0.

End Re.

(** ** [xml.etree.ElementTree] *)

Module ET.
Import PyStr.

(** An element: its tag, the text before its first child ([None] when there
    is none), its children, and the text after its end tag. *)
Inductive Element : Type :=
| Elem (tag : string) (text : option string) (children : list Element)
       (tail : option string).

Definition tag (e : Element) : string := let (t, _, _, _) := e in t.
Definition text (e : Element) : option string := let (_, x, _, _) := e in x.
Definition children (e : Element) : list Element := let (_, _, c, _) := e in c.
Definition tail (e : Element) : option string := let (_, _, _, x) := e in x.

(** [e.findall(path)] for a path of plain tag names separated by [/]: the
    children with the first tag, then theirs with the next, in document
    order. *)
Fixpoint findall (path : list string) (e : Element) : list Element :=
  match path with
  | [] => [e]
  | t :: path' =>
      flat_map (findall path') (filter (fun c => String.eqb (tag c) t) (children e))
  end.

(** [e.findtext(path)]: the text of the first element found, the empty
    string when that element has no text, [None] when none is found. *)
Definition findtext (path : list string) (e : Element) : option string :=
  match findall path e with
  | [] => None
  | c :: _ => match text c with
              | None => Some EmptyString
              | Some x => Some x
              end
  end.

(** [e.findtext(path, default)] *)
Definition findtext_or (path : list string) (default : string) (e : Element)
  : string :=
  match findtext path e with
  | Some x => x
  | None => default
  end.

(** The outcome of [ET.fromstring]: a root element, or one of the two
    exceptions, [ET.ParseError] and [ValueError], that both tree extractors
    catch with one [except] clause. *)
Inductive parse_result : Type :=
| Parsed (root : Element)
| ParseError.

(** *** An executable parser for the element-and-text fragment of XML

    [ET.fromstring] is expat.  The parser below agrees with it on documents
    made of start tags, end tags and empty-element tags without attributes
    and without a colon in the name, and of character data without [&].  A
    document that uses more of XML than that (attributes, references,
    comments, CDATA sections, processing instructions, a DOCTYPE) is reported
    as [ParseError] here although expat may build a tree for it; the
    extractors below therefore take the parser as a parameter, and this one
    is used to run them on concrete documents of the fragment. *)

Inductive token : Type :=
| TStart (n : string)
| TEnd (n : string)
| TEmpty (n : string)
| TText (s : string).

Definition is_letter (c : ascii) : bool :=
  let n := nat_of_ascii c in
  (((65 <=? n) && (n <=? 90)) || ((97 <=? n) && (n <=? 122)))%nat.

Definition is_digit (c : ascii) : bool :=
  let n := nat_of_ascii c in ((48 <=? n) && (n <=? 57))%nat.

Definition name_start (c : ascii) : bool := is_letter c || Ascii.eqb c "_".

Definition name_char (c : ascii) : bool :=
  name_start c || is_digit c || Ascii.eqb c "-" || Ascii.eqb c ".".

Definition is_name (s : string) : bool :=
  match s with
  | EmptyString => false
  | String c s' => name_start c && all_chars name_char s'
  end.

(** White space of XML: space, tab, line feed, carriage return. *)
Definition xml_space (c : ascii) : bool :=
  let n := nat_of_ascii c in
  ((n =? 32) || (n =? 9) || (n =? 10) || (n =? 13))%nat.

(** The characters XML allows in a document. *)
Definition xml_char (c : ascii) : bool :=
  let n := nat_of_ascii c in
  ((n =? 9) || (n =? 10) || (n =? 13) || (32 <=? n))%nat.

(** Line ends are normalised to a line feed before parsing. *)
Fixpoint normalize_newlines (s : string) : string :=
  match s with
  | EmptyString => EmptyString
  | String c s' =>
      if Ascii.eqb c (ascii_of_nat 13) then
        match s' with
        | String d _ =>
            if Ascii.eqb d (ascii_of_nat 10) then normalize_newlines s'
            else String (ascii_of_nat 10) (normalize_newlines s')
        | EmptyString => String (ascii_of_nat 10) EmptyString
        end
      else String c (normalize_newlines s')
  end.

Fixpoint rstrip_xml (s : string) : string :=
  match s with
  | EmptyString => EmptyString
  | String c s' =>
      match rstrip_xml s' with
      | EmptyString => if xml_space c then EmptyString else String c EmptyString
      | r => String c r
      end
  end.

(** The text between [<] and [>] read as a tag. *)
Definition parse_tag (body : string) : option token :=
  match body with
  | String "/" rest =>
      let n := rstrip_xml rest in
      if is_name n then Some (TEnd n) else None
  | _ =>
      let k := String.length body - 1 in
      if String.eqb (drop k body) "/" then
        let n := rstrip_xml (take k body) in
        if is_name n then Some (TEmpty n) else None
      else
        let n := rstrip_xml body in
        if is_name n then Some (TStart n) else None
  end.

Definition text_token (buf : string) : option (list token) :=
  match buf with
  | EmptyString => Some []
  | _ => if contains "]]>" buf then None else Some [TText buf]
  end.

Definition prepend (ts : option (list token)) (rest : option (list token))
  : option (list token) :=
  match ts, rest with
  | Some a, Some b => Some (a ++ b)%list
  | _, _ => None
  end.

(** [lex s in_tag buf]: the tokens of [s], [buf] being the piece of text or of
    tag read so far. *)
Fixpoint lex (s : string) (in_tag : bool) (buf : string) : option (list token) :=
  match s with
  | EmptyString => if in_tag then None else text_token buf
  | String c s' =>
      if negb (xml_char c) then None
      else if in_tag then
        if Ascii.eqb c ">" then
          prepend (option_map (fun t => [t]) (parse_tag buf)) (lex s' false EmptyString)
        else if Ascii.eqb c "<" then None
        else lex s' true (buf ++ String c EmptyString)
      else
        if Ascii.eqb c "<" then prepend (text_token buf) (lex s' true EmptyString)
        else if Ascii.eqb c "&" then None
        else lex s' false (buf ++ String c EmptyString)
  end.

(** An element under construction: its tag, its text, and its children so
    far, last first. *)
Record frame : Type := Frame {
  f_tag : string;
  f_text : option string;
  f_kids : list Element
}.

Definition add_kid (e : Element) (f : frame) : frame :=
  Frame (f_tag f) (f_text f) (e :: f_kids f).

(** Character data goes to the text of the open element while it has no
    child, and to the tail of its last child afterwards. *)
Definition add_text (s : string) (f : frame) : frame :=
  match f_kids f with
  | [] => Frame (f_tag f) (Some s) []
  | Elem t x c _ :: ks => Frame (f_tag f) (f_text f) (Elem t x c (Some s) :: ks)
  end.

Fixpoint build (ts : list token) (stack : list frame) (root : option Element)
  : parse_result :=
  match ts with
  | [] => match stack, root with
          | [], Some e => Parsed e
          | _, _ => ParseError
          end
  | t :: ts' =>
      match stack with
      | [] =>
          match t with
          | TText s => if all_chars xml_space s then build ts' [] root else ParseError
          | TStart n =>
              match root with
              | None => build ts' [Frame n None []] None
              | Some _ => ParseError
              end
          | TEmpty n =>
              match root with
              | None => build ts' [] (Some (Elem n None [] None))
              | Some _ => ParseError
              end
          | TEnd _ => ParseError
          end
      | f :: st =>
          match t with
          | TText s => build ts' (add_text s f :: st) root
          | TStart n => build ts' (Frame n None [] :: f :: st) root
          | TEmpty n => build ts' (add_kid (Elem n None [] None) f :: st) root
          | TEnd n =>
              if String.eqb n (f_tag f) then
                let e := Elem (f_tag f) (f_text f) (rev (f_kids f)) None in
                match st with
                | [] => build ts' [] (Some e)
                | p :: st' => build ts' (add_kid e p :: st') root
                end
              else ParseError
          end
      end
  end.

Definition xml_fromstring (s : string) : parse_result :=
  match lex (normalize_newlines s) false EmptyString with
  | Some ts => build ts [] None
  | None => ParseError
  end.

End ET.

(** ** Python values and exceptions *)

(** The values a response can hold: [None], booleans, integers, strings,
    lists, and dictionaries with string keys kept in insertion order (their
    keys are distinct; a lookup takes the first binding). *)
Inductive pyval : Type :=
| PNone
| PBool (b : bool)
| PInt (z : Z)
| PStr (s : string)
| PList (l : list pyval)
| PDict (d : list (string * pyval)).

(** The exception that can leave the module: [f.text.strip()] on an element
    whose [text] is [None]. *)
Inductive exn : Type :=
| AttributeError.

Inductive result (A : Type) : Type :=
| Return (a : A)
| Raise (e : exn).

Arguments Return {A} a.
Arguments Raise {A} e.

Definition bind {A B : Type} (m : result A) (k : A -> result B) : result B :=
  match m with
  | Return a => k a
  | Raise e => Raise e
  end.

Notation "x <- m ;; k" := (bind m (fun x => k))
  (at level 62, m at next level, right associativity).

(** A list comprehension or [for] loop whose body can raise. *)
Fixpoint mapM {A B : Type} (f : A -> result B) (l : list A) : result (list B) :=
  match l with
  | [] => Return []
  | a :: l' => b <- f a ;; bs <- mapM f l' ;; Return (b :: bs)
  end.

(** [l.append(x)] and [l.extend(l')], as values. *)
Definition append_item {A : Type} (l : list A) (x : A) : list A := (l ++ [x])%list.
Definition extend_items {A : Type} (l l' : list A) : list A := (l ++ l')%list.

(** [enumerate(l, start)] *)
Fixpoint enumerate {A : Type} (start : nat) (l : list A) : list (nat * A) :=
  match l with
  | [] => []
  | a :: l' => (start, a) :: enumerate (S start) l'
  end.

Module PyVal.
Import PyStr.

(** [bool(v)] *)
Definition truthy (v : pyval) : bool :=
  match v with
  | PNone => false
  | PBool b => b
  | PInt z => negb (Z.eqb z 0)
  | PStr s => negb (String.eqb s EmptyString)
  | PList l => match l with [] => false | _ => true end
  | PDict d => match d with [] => false | _ => true end
  end.

(** [d.get(k)], [None] when [k not in d]. *)
Fixpoint dict_get (d : list (string * pyval)) (k : string) : option pyval :=
  match d with
  | [] => None
  | (k', v) :: d' => if String.eqb k' k then Some v else dict_get d' k
  end.

Fixpoint has_char (c : ascii) (s : string) : bool :=
  match s with
  | EmptyString => false
  | String a s' => Ascii.eqb a c || has_char c s'
  end.

Definition hex_digit (n : nat) : ascii :=
  if (n <? 10)%nat then ascii_of_nat (48 + n) else ascii_of_nat (87 + n).

Definition BS : ascii := ascii_of_nat 92.

Definition escape_char (quote c : ascii) : string :=
  let n := nat_of_ascii c in
  if Ascii.eqb c quote || Ascii.eqb c BS then String BS (String c EmptyString)
  else if (n =? 9)%nat then String BS "t"
  else if (n =? 10)%nat then String BS "n"
  else if (n =? 13)%nat then String BS "r"
  else if ((n <? 32) || (n =? 127))%nat then
    String BS (String "x" (String (hex_digit (n / 16)) (String (hex_digit (n mod 16)) EmptyString)))
  else String c EmptyString.

Fixpoint escape (quote : ascii) (s : string) : string :=
  match s with
  | EmptyString => EmptyString
  | String c s' => escape_char quote c ++ escape quote s'
  end.

(** [repr(s)] of a string: single quotes, unless the string holds a single
    quote and no double quote. *)
Definition repr_str (s : string) : string :=
  let quote := if has_char SQ s && negb (has_char DQ s) then DQ else SQ in
  String quote (escape quote s ++ String quote EmptyString).

(** [repr(v)] *)
Fixpoint repr (v : pyval) : string :=
  match v with
  | PNone => "None"
  | PBool b => if b then "True" else "False"
  | PInt z => of_Z z
  | PStr s => repr_str s
  | PList l => "[" ++ join ", " (map repr l) ++ "]"
  | PDict d =>
      "{" ++ join ", " (map (fun kv => repr_str (fst kv) ++ ": " ++ repr (snd kv)) d) ++ "}"
  end.

(** [str(v)] *)
Definition str (v : pyval) : string :=
  match v with
  | PStr s => s
  | _ => repr v
  end.

(** [d[k] if k in d and d[k] else None]: the value of a key that is present
    and truthy. *)
Definition truthy_get (d : list (string * pyval)) (k : string) : option pyval :=
  match dict_get d k with
  | Some v => if truthy v then Some v else None
  | None => None
  end.

(** The value of the first key of [keys] that is present and truthy. *)
Fixpoint first_truthy (d : list (string * pyval)) (keys : list string) : option pyval :=
  match keys with
  | [] => None
  | k :: keys' =>
      match truthy_get d k with
      | Some v => Some v
      | None => first_truthy d keys'
      end
  end.

(** How many dictionaries are nested inside one another in [v], through the
    values of their keys. *)
Fixpoint nesting (v : pyval) : nat :=
  match v with
  | PDict d => S (fold_right (fun kv n => Nat.max (nesting (snd kv)) n) 0 d)
  | _ => 0
  end.

End PyVal.

(** Induction over values, with the hypothesis for every element of a list
    and every value of a dictionary. *)
Section PyvalInduction.
Variable P : pyval -> Prop.
Hypothesis HNone : P PNone.
Hypothesis HBool : forall b, P (PBool b).
Hypothesis HInt : forall z, P (PInt z).
Hypothesis HStr : forall s, P (PStr s).
Hypothesis HList : forall l, Forall P l -> P (PList l).
Hypothesis HDict : forall d, Forall (fun kv => P (snd kv)) d -> P (PDict d).

Fixpoint pyval_nested_ind (v : pyval) : P v :=
  match v with
  | PNone => HNone
  | PBool b => HBool b
  | PInt z => HInt z
  | PStr s => HStr s
  | PList l =>
      HList l ((fix all (l : list pyval) : Forall P l :=
                match l with
                | [] => Forall_nil P
                | x :: l' => Forall_cons x (pyval_nested_ind x) (all l')
                end) l)
  | PDict d =>
      HDict d ((fix all (d : list (string * pyval)) : Forall (fun kv => P (snd kv)) d :=
                match d with
                | [] => Forall_nil _
                | kv :: d' =>
                    Forall_cons kv
                      (let (k, x) as p return P (snd p) := kv in pyval_nested_ind x)
                      (all d')
                end) d)
  end.

End PyvalInduction.

(** ** template_utils.py *)

Module TemplateUtils.
Import PyStr Re ET PyVal.

(** The two patterns of [clean_template_tags]: [<[^>]+>] and [\s+]. *)
Definition tag_pattern : regex := (Lit "<" >> Rep (NotChar ">") 1 true >> Lit ">")%re.
Definition spaces_pattern : regex := Rep Space 1 true.

(** [clean_template_tags]: remove every tag, collapse white space, trim. *)
Definition clean_template_tags (text : string) : string :=
  let cleaned := Re.sub tag_pattern EmptyString text in
  let cleaned := Re.sub spaces_pattern " " cleaned in
  strip cleaned.

(** [<TAG>(.*?)</TAG>] with its group numbered [n], the shape of the pattern
    of every single field. *)
Definition field_pattern (n : nat) (name : string) : regex :=
  (Lit ("<" ++ name ++ ">") >> Group n (Rep AnyChar 0 false) >> Lit ("</" ++ name ++ ">"))%re.

(** [\s*] *)
Definition ws : regex := Rep Space 0 true.

(** The pattern of the vendor block number [i] in
    [extract_comparison_template]. *)
Definition vendor_pattern (i : nat) : regex :=
  (Lit ("<VENDOR" ++ of_nat i ++ ">") >> ws >>
   field_pattern 1 "NAME" >> ws >>
   field_pattern 2 "PERFORMANCE" >> ws >>
   Opt (field_pattern 3 "STRENGTHS") >> ws >>
   Opt (field_pattern 4 "CONCERNS") >> ws >>
   Lit ("</VENDOR" ++ of_nat i ++ ">"))%re.

(** [m.group(n).strip()], for a group that takes part in every match of its
    pattern. *)
Definition group_strip (m : match_object) (n : nat) : string :=
  match m_group m n with
  | Some s => strip s
  | None => EmptyString
  end.

(** [m.group(n).strip() if m.group(n) else default]: the default stands for
    a group that took no part in the match and for one that matched the
    empty string. *)
Definition strip_or (group : option string) (default : string) : string :=
  match group with
  | Some (String c s) => strip (String c s)
  | _ => default
  end.

Definition group_strip_or (m : match_object) (n : nat) (default : string) : string :=
  strip_or (m_group m n) default.

(** The lines the loop of [extract_comparison_template] appends for vendor
    [i]: four when the pattern is found, none otherwise. *)
Definition vendor_lines (response_text : string) (i : nat) : list string :=
  match search true (vendor_pattern i) response_text with
  | Some m =>
      let name := group_strip m 1 in
      let performance := group_strip m 2 in
      let strengths := group_strip_or m 3 "Not specified" in
      let concerns := group_strip_or m 4 "None identified" in
      [ "**" ++ name ++ "**";
        "Performance: " ++ performance;
        "Strengths: " ++ strengths;
        "Concerns: " ++ concerns ++ LF ]
  | None => []
  end.

(** [for i in range(1, 11)] *)
Definition vendor_section (response_text : string) : list string :=
  flat_map (vendor_lines response_text) (seq 1 10).

Definition extract_comparison_template (response_text : string) : string :=
  let summary :=
    match search true (field_pattern 1 "SUMMARY") response_text with
    | Some m => ["Summary: " ++ group_strip m 1 ++ LF]
    | None => []
    end in
  let recommendation :=
    match search true (field_pattern 1 "RECOMMENDATION") response_text with
    | Some m => ["Recommendation: " ++ group_strip m 1]
    | None => []
    end in
  let result := (summary ++ vendor_section response_text ++ recommendation)%list in
  match result with
  | [] => clean_template_tags response_text
  | _ => join LF result
  end.

Definition extract_synthesis_template (response_text : string) : string :=
  match search true (field_pattern 1 "ANSWER") response_text with
  | Some m => group_strip m 1
  | None =>
      match search true (field_pattern 1 "RESPONSE") response_text with
      | Some m => group_strip m 1
      | None => clean_template_tags response_text
      end
  end.

(** The branch of [extract_template_response] for [<insufficient_data>]:
    the enclosed text, [None] when the pattern is not found and the function
    goes on to the generic cleaning. *)
Definition extract_insufficient_data (response_text : string) : option string :=
  match search true (field_pattern 1 "insufficient_data") response_text with
  | Some m => Some (group_strip m 1)
  | None => None
  end.

(** [e.text.strip()], which raises on an element without text. *)
Definition text_strip (e : Element) : result string :=
  match text e with
  | Some x => Return (strip x)
  | None => Raise AttributeError
  end.

(** The line of one recommendation:
    [f"{i}. {action} (Priority: {priority})\n   Justification: {justification}"] *)
Definition format_recommendation (ir : nat * Element) : string :=
  let (i, rec) := ir in
  let action := findtext_or ["action"] "N/A" rec in
  let justification := findtext_or ["justification"] "N/A" rec in
  let priority := findtext_or ["priority"] "Medium" rec in
  of_nat i ++ ". " ++ action ++ " (Priority: " ++ priority ++ ")"
    ++ LF ++ "   Justification: " ++ justification.

(** [s.split('\n')] *)
Fixpoint split_lines (s : string) : list string :=
  match s with
  | EmptyString => [EmptyString]
  | String c s' =>
      if Ascii.eqb c (ascii_of_nat 10) then EmptyString :: split_lines s'
      else match split_lines s' with
           | l :: ls => String c l :: ls
           | [] => [String c EmptyString]
           end
  end.

(** [s.lstrip(chars)]: the leading characters that belong to [chars] are
    removed. *)
Fixpoint lstrip_chars (chars s : string) : string :=
  match s with
  | EmptyString => EmptyString
  | String c s' => if has_char c chars then lstrip_chars chars s' else s
  end.

(** [\d] on ASCII text. *)
Definition isdigit (c : ascii) : bool :=
  let n := nat_of_ascii c in ((48 <=? n) && (n <=? 57))%nat.

Fixpoint skip_digits (s : string) : string :=
  match s with
  | EmptyString => EmptyString
  | String c s' => if isdigit c then skip_digits s' else s
  end.

(** [re.sub(r'^\d+[\.\)]\s*', '', line)]: a line that starts with digits
    followed by a full stop or a closing parenthesis loses them and the
    white space after them; any other line is left as it is. *)
Definition strip_numbering (line : string) : string :=
  match line with
  | EmptyString => EmptyString
  | String c _ =>
      if isdigit c then
        match skip_digits line with
        | String p rest =>
            if Ascii.eqb p "." || Ascii.eqb p ")" then lstrip rest else line
        | EmptyString => line
        end
      else line
  end.

(** The three [lstrip] calls and the substitution applied to each line.  Of
    the four characters of the third set only the space is ASCII: on ASCII
    text that call removes leading spaces. *)
Definition strip_bullet (line : string) : string :=
  let line := lstrip_chars " " (lstrip_chars "* " (lstrip_chars "- " line)) in
  strip_numbering line.

Definition nonempty (s : string) : bool := negb (String.eqb s EmptyString).

Section Extractors.

(** [ET.fromstring] *)
Variable fromstring : string -> parse_result.

Definition extract_recommendations_template (response_text : string) : string :=
  let xml_string := slice_from_find "<recommendations>" response_text in
  match fromstring xml_string with
  | Parsed root =>
      let recommendations := findall ["recommendation"] root in
      match recommendations with
      | [] => "No recommendations provided."
      | _ =>
          let formatted := map format_recommendation (enumerate 1 recommendations) in
          match formatted with
          | [] => "No actionable recommendations found in the response."
          | _ => "Strategic Recommendations:" ++ LF ++ LF ++ join (LF ++ LF) formatted
          end
      end
  | ParseError => clean_template_tags response_text
  end.

Definition extract_statistical_template (response_text : string) : result string :=
  let xml_string := slice_from_find "<statistical_analysis>" response_text in
  match fromstring xml_string with
  | Parsed root =>
      let result0 : list string := [] in
      let result1 :=
        match findtext ["summary"] root with
        | Some (String c s) => append_item result0 ("Summary: " ++ strip (String c s) ++ LF)
        | _ => result0
        end in
      result2 <-
        match findall ["findings"; "finding"] root with
        | [] => Return result1
        | findings =>
            lines <- mapM (fun jf => t <- text_strip (snd jf) ;;
                                     Return (of_nat (fst jf) ++ ". " ++ t))
                          (enumerate 1 findings) ;;
            Return (append_item (extend_items (append_item result1 "Key Findings:") lines) EmptyString)
        end ;;
      let result3 :=
        match findtext ["business_impact"] root with
        | Some (String c s) => append_item result2 ("Business Impact: " ++ strip (String c s) ++ LF)
        | _ => result2
        end in
      result4 <-
        match findall ["recommendations"; "recommendation"] root with
        | [] => Return result3
        | recommendations =>
            lines <- mapM (fun rec => t <- text_strip rec ;; Return ("- " ++ t))
                          recommendations ;;
            Return (extend_items (append_item result3 "Recommendations:") lines)
        end ;;
      match result4 with
      | [] => Return "Could not extract statistical analysis from the response."
      | _ => Return (join LF result4)
      end
  | ParseError => Return (clean_template_tags response_text)
  end.

Definition extract_template_response (response_text : string) : result string :=
  match response_text with
  | EmptyString => Return response_text
  | _ =>
      let lowered := lower response_text in
      if contains "<recommendations>" lowered then
        Return (extract_recommendations_template response_text)
      else if contains "<comparison_start>" lowered then
        Return (extract_comparison_template response_text)
      else if contains "<statistical_analysis>" lowered then
        extract_statistical_template response_text
      else if contains "<response_start>" lowered || contains "<answer>" lowered then
        Return (extract_synthesis_template response_text)
      else
        match (if contains "<insufficient_data>" lowered
               then extract_insufficient_data response_text else None) with
        | Some inner => Return inner
        | None =>
            let cleaned := clean_template_tags response_text in
            Return (if String.eqb cleaned response_text then response_text else cleaned)
        end
  end.

(** The preference order of the fields of a keyed response. *)
Definition preference_keys : list string :=
  ["answer"; "text"; "content"; "response"; "result"].

(** [extract_text_from_response] on a string. *)
Definition extract_text_from_str (response : string) : result string :=
  if contains "<" response && contains ">" response then
    extracted <- extract_template_response response ;;
    Return (if negb (String.eqb extracted EmptyString) && negb (String.eqb extracted response)
            then extracted else response)
  else Return response.

Fixpoint extract_text_from_response (response : pyval) : result string :=
  match response with
  | PNone => Return EmptyString
  | PStr s => extract_text_from_str s
  | PDict d =>
      let fix field_value (field : string) (items : list (string * pyval))
        : option (result string) :=
        match items with
        | [] => None
        | (k, v) :: items' =>
            if String.eqb k field
            then (if truthy v then Some (extract_text_from_response v) else None)
            else field_value field items'
        end in
      let fix first_field (fields : list string) : result string :=
        match fields with
        | [] => Return (str response)
        | field :: fields' =>
            match field_value field d with
            | Some r => r
            | None => first_field fields'
            end
        end in
      first_field preference_keys
  | _ => Return (str response)
  end.

(** The number of activations of [extract_text_from_response] on the stack
    at the deepest point of a call: one for the call itself, and one more
    for each recursive call it is inside of. *)
Fixpoint recursion_depth (response : pyval) : nat :=
  match response with
  | PDict d =>
      let fix field_depth (field : string) (items : list (string * pyval))
        : option nat :=
        match items with
        | [] => None
        | (k, v) :: items' =>
            if String.eqb k field
            then (if truthy v then Some (recursion_depth v) else None)
            else field_depth field items'
        end in
      let fix first_field (fields : list string) : nat :=
        match fields with
        | [] => 1
        | field :: fields' =>
            match field_depth field d with
            | Some n => S n
            | None => first_field fields'
            end
        end in
      first_field preference_keys
  | _ => 1
  end.

Definition format_llm_response_as_list (response : pyval) : result (list string) :=
  text <- extract_text_from_response response ;;
  match text with
  | EmptyString => Return []
  | _ =>
      let lines := filter nonempty (map strip (split_lines text)) in
      let cleaned_lines := filter nonempty (map strip_bullet lines) in
      Return cleaned_lines
  end.

End Extractors.

End TemplateUtils.

(** * The vocabulary of the specification *)

Module Spec.
Import PyStr Re ET PyVal TemplateUtils.

(** A response nested [n] dictionaries deep under the key [answer]. *)
Fixpoint nested_answer (n : nat) : pyval :=
  match n with
  | 0 => PStr "ok"
  | S k => PDict [("answer", nested_answer k)]
  end.

(** A preference key is skipped when it is absent or its value is falsy. *)
Definition skipped (d : list (string * pyval)) (k : string) : Prop :=
  match dict_get d k with
  | Some v => truthy v = false
  | None => True
  end.

(** The dialects of the registry, and the document that carries no marker. *)
Inductive dialect : Type :=
| Recommendations
| Comparison
| StatisticalAnalysis
| Synthesis
| InsufficientData
| Unrecognized.

(** The markers that are probed for each dialect. *)
Definition markers (d : dialect) : list string :=
  match d with
  | Recommendations => ["<recommendations>"]
  | Comparison => ["<comparison_start>"]
  | StatisticalAnalysis => ["<statistical_analysis>"]
  | Synthesis => ["<response_start>"; "<answer>"]
  | InsufficientData => ["<insufficient_data>"]
  | Unrecognized => []
  end.

(** The fixed priority order of the probes. *)
Definition priority : list dialect :=
  [Recommendations; Comparison; StatisticalAnalysis; Synthesis; InsufficientData].

Definition rank (d : dialect) : nat :=
  match d with
  | Recommendations => 0
  | Comparison => 1
  | StatisticalAnalysis => 2
  | Synthesis => 3
  | InsufficientData => 4
  | Unrecognized => 5
  end.

(** A case-insensitive substring probe for a marker of the dialect. *)
Definition has_marker (text : string) (d : dialect) : bool :=
  existsb (fun m => contains m (lower text)) (markers d).

(** First match wins. *)
Definition dispatch (text : string) : dialect :=
  match List.find (has_marker text) priority with
  | Some d => d
  | None => Unrecognized
  end.

(** The extractor of each dialect; the last two end in the generic
    cleaning. *)
Definition extractor (fromstring : string -> parse_result) (d : dialect)
           (text : string) : result string :=
  match d with
  | Recommendations => Return (extract_recommendations_template fromstring text)
  | Comparison => Return (extract_comparison_template text)
  | StatisticalAnalysis => extract_statistical_template fromstring text
  | Synthesis => Return (extract_synthesis_template text)
  | InsufficientData =>
      match extract_insufficient_data text with
      | Some inner => Return inner
      | None => Return (clean_template_tags text)
      end
  | Unrecognized => Return (clean_template_tags text)
  end.

(** The value of the sub-field [name] of an element: the default when no
    child has that tag, and otherwise the text of the first child that has
    it, unchanged (empty when that child has no text). *)
Inductive sub_field (e : Element) (name default : string) : string -> Prop :=
| sub_field_absent :
    (forall c, In c (children e) -> tag c <> name) ->
    sub_field e name default default
| sub_field_present (before after : list Element) (c : Element) :
    children e = (before ++ c :: after)%list ->
    (forall b, In b before -> tag b <> name) ->
    tag c = name ->
    sub_field e name default (match text c with Some x => x | None => EmptyString end).


(** Equal up to the case of letters. *)
Definition same_ci (a b : string) : Prop := lower a = lower b.

(** White space only. *)
Definition blank (w : string) : Prop := all_chars isspace w = true.

(** A field: its opening tag, its content, its closing tag. *)
Definition field (name content w : string) : Prop :=
  exists opening closing,
    w = opening ++ content ++ closing
    /\ same_ci opening ("<" ++ name ++ ">")
    /\ same_ci closing ("</" ++ name ++ ">").

(** A field that may be missing. *)
Definition optional_field (name : string) (content : option string) (w : string) : Prop :=
  match content with
  | Some c => field name c w
  | None => w = EmptyString
  end.

(** The vendor sub-block number [i]: between its tags, a NAME field and a
    PERFORMANCE field, then an optional STRENGTHS field and an optional
    CONCERNS field, with nothing but white space around them. *)
Definition vendor_block (i : nat) (name performance : string)
           (strengths concerns : option string) (w : string) : Prop :=
  exists opening s1 fname s2 fperf s3 fstr s4 fcon s5 closing,
    w = opening ++ s1 ++ fname ++ s2 ++ fperf ++ s3 ++ fstr ++ s4 ++ fcon ++ s5 ++ closing
    /\ same_ci opening ("<VENDOR" ++ of_nat i ++ ">")
    /\ blank s1 /\ field "NAME" name fname
    /\ blank s2 /\ field "PERFORMANCE" performance fperf
    /\ blank s3 /\ optional_field "STRENGTHS" strengths fstr
    /\ blank s4 /\ optional_field "CONCERNS" concerns fcon
    /\ blank s5 /\ same_ci closing ("</VENDOR" ++ of_nat i ++ ">").

(** The entry of a vendor analysis, with the defaults of its two optional
    fields. *)
Definition vendor_entry (name performance : string) (strengths concerns : option string)
  : list string :=
  [ "**" ++ strip name ++ "**";
    "Performance: " ++ strip performance;
    "Strengths: " ++ strip_or strengths "Not specified";
    "Concerns: " ++ strip_or concerns "None identified" ++ LF ].

(** A recommendations block in lower case, and the same block with the tag
    of its recommendation element in upper case. *)
Definition lower_case_block : string :=
  "<recommendations><recommendation><action>Buy</action></recommendation></recommendations>".
Definition upper_case_block : string :=
  "<recommendations><RECOMMENDATION><action>Buy</action></RECOMMENDATION></recommendations>".

(** The match that the matcher tries first, under [re.IGNORECASE]. *)
Definition first_match (r : regex) (s : string) (g : groups) (res : string * groups)
  : Prop :=
  exists tl, run true r s g = res :: tl.

(** [item] is what is left of [line] when some of its first characters are
    removed. *)
Definition tail_of (item line : string) : Prop := exists pre, line = pre ++ item.

(** *** The two substitutions of [clean_template_tags] as scanners *)

(** The text after the first [>] of [s]. *)
Fixpoint after_gt (s : string) : string :=
  match s with
  | EmptyString => EmptyString
  | String c s' => if Ascii.eqb c ">" then s' else after_gt s'
  end.

(** The text that follows a [<] opens a tag when it starts with a character
    other than [>] and holds a [>]. *)
Definition opens_tag (s : string) : bool :=
  match s with
  | EmptyString => false
  | String c _ => negb (Ascii.eqb c ">") && has_char ">" s
  end.

(** Tag removal, character by character: inside a tag everything up to the
    first [>] is dropped; outside, a [<] that opens a tag starts one. *)
Fixpoint strip_tags (s : string) (in_tag : bool) : string :=
  match s with
  | EmptyString => EmptyString
  | String c s' =>
      if in_tag then strip_tags s' (negb (Ascii.eqb c ">"))
      else if Ascii.eqb c "<" && opens_tag s' then strip_tags s' true
      else String c (strip_tags s' false)
  end.

(** White-space collapse, character by character: the first character of a
    run of white space becomes a space and the others are dropped. *)
Fixpoint collapse (s : string) (in_space : bool) : string :=
  match s with
  | EmptyString => EmptyString
  | String c s' =>
      if isspace c then
        if in_space then collapse s' true else String " " (collapse s' true)
      else String c (collapse s' false)
  end.

(** The text left after the longest run of characters of the class. *)
Fixpoint skip_class (k : cclass) (s : string) : string :=
  match s with
  | EmptyString => EmptyString
  | String c s' => if in_class k c then skip_class k s' else s
  end.

(** No [<] of the text opens a tag. *)
Fixpoint tag_free (s : string) : bool :=
  match s with
  | EmptyString => true
  | String c s' => negb (Ascii.eqb c "<" && opens_tag s') && tag_free s'
  end.

(** Every white-space character of the text is a space that follows a
    character other than white space ([after_space] tells what precedes the
    text). *)
Fixpoint single_spaced (s : string) (after_space : bool) : bool :=
  match s with
  | EmptyString => true
  | String c s' =>
      if isspace c then Ascii.eqb c " " && negb after_space && single_spaced s' true
      else single_spaced s' false
  end.

End Spec.

(** * Properties *)

Module ResponseFields.
Import PyStr Re ET PyVal TemplateUtils Spec.

Section WithParser.
Variable fromstring : string -> parse_result.

Lemma extract_text_dict_eq (d : list (string * pyval)) :
  extract_text_from_response fromstring (PDict d) =
  match first_truthy d preference_keys with
  | Some v => extract_text_from_response fromstring v
  | None => Return (str (PDict d))
  end.
Proof.
  unfold preference_keys. cbn [extract_text_from_response first_truthy].
  unfold preference_keys. cbn -[truthy_get str extract_text_from_response].
  match goal with
  | |- context [ ?f "answer" d ] =>
      assert (H : forall field items,
                 f field items =
                 option_map (extract_text_from_response fromstring) (truthy_get items field))
  end.
  { intros field items. induction items as [|[k v] items IH].
    - reflexivity.
    - unfold truthy_get. cbn [dict_get]. destruct (String.eqb k field).
      + destruct (truthy v); reflexivity.
      + exact IH. }
  rewrite !H.
  repeat match goal with
         | |- context [ truthy_get d ?k ] => destruct (truthy_get d k); cbn [option_map]; try reflexivity
         end.
Qed.

Lemma recursion_depth_dict_eq (d : list (string * pyval)) :
  recursion_depth (PDict d) =
  match first_truthy d preference_keys with
  | Some v => S (recursion_depth v)
  | None => 1
  end.
Proof.
  unfold preference_keys. cbn [recursion_depth first_truthy].
  unfold preference_keys. cbn -[truthy_get recursion_depth].
  match goal with
  | |- context [ ?f "answer" d ] =>
      assert (H : forall field items,
                 f field items = option_map recursion_depth (truthy_get items field))
  end.
  { intros field items. induction items as [|[k v] items IH].
    - reflexivity.
    - unfold truthy_get. cbn [dict_get]. destruct (String.eqb k field).
      + destruct (truthy v); reflexivity.
      + exact IH. }
  rewrite !H.
  repeat match goal with
         | |- context [ truthy_get d ?k ] => destruct (truthy_get d k); cbn [option_map]; try reflexivity
         end.
Qed.

Lemma first_truthy_skipped (d : list (string * pyval)) (keys : list string) :
  Forall (skipped d) keys -> first_truthy d keys = None.
Proof.
  induction 1 as [|k keys Hk _ IH]; [reflexivity|].
  cbn [first_truthy]. unfold skipped in Hk. unfold truthy_get.
  destruct (dict_get d k) as [v|]; [rewrite Hk|]; exact IH.
Qed.

Lemma first_truthy_found (d : list (string * pyval)) (before after : list string)
      (field : string) (v : pyval) :
  Forall (skipped d) before ->
  dict_get d field = Some v -> truthy v = true ->
  first_truthy d (before ++ field :: after) = Some v.
Proof.
  intros Hb Hget Ht. induction Hb as [|k keys Hk _ IH].
  - cbn [app first_truthy]. unfold truthy_get. rewrite Hget, Ht. reflexivity.
  - cbn [app first_truthy]. unfold skipped in Hk. unfold truthy_get at 1.
    destruct (dict_get d k) as [w|]; [rewrite Hk|]; exact IH.
Qed.

Lemma dict_get_In (d : list (string * pyval)) (k : string) (v : pyval) :
  dict_get d k = Some v -> In (k, v) d.
Proof.
  induction d as [|[k' w] d IH]; cbn [dict_get]; [discriminate|].
  destruct (String.eqb k' k) eqn:E.
  - intros [= ->]. apply String.eqb_eq in E. subst. left. reflexivity.
  - intros H. right. exact (IH H).
Qed.

Lemma first_truthy_In (d : list (string * pyval)) (keys : list string) (v : pyval) :
  first_truthy d keys = Some v -> exists k, In (k, v) d.
Proof.
  induction keys as [|k keys IH]; cbn [first_truthy]; [discriminate|].
  unfold truthy_get. destruct (dict_get d k) as [w|] eqn:E; [|exact IH].
  destruct (truthy w); [|exact IH].
  intros [= ->]. exists k. exact (dict_get_In _ _ _ E).
Qed.

Lemma nesting_value (d : list (string * pyval)) (k : string) (v : pyval) :
  In (k, v) d -> S (nesting v) <= nesting (PDict d).
Proof.
  cbn [nesting]. intros H. apply le_n_S.
  induction d as [|kv d IH]; [destruct H|].
  cbn [fold_right]. destruct H as [-> | H].
  - cbn [snd]. apply Nat.le_max_l.
  - etransitivity; [exact (IH H)|]. apply Nat.le_max_r.
Qed.

Lemma recursion_depth_nested_answer (n : nat) :
  recursion_depth (nested_answer n) = S n.
Proof.
  induction n as [|n IH]; [reflexivity|].
  cbn [nested_answer]. rewrite recursion_depth_dict_eq.
  assert (E : first_truthy [("answer", nested_answer n)] preference_keys
              = Some (nested_answer n)).
  { cbn. destruct n; reflexivity. }
  rewrite E, IH. reflexivity.
Qed.

(** C9. A missing response, [None], is extracted as the empty string: the
    call returns, and what it returns is neither an exception nor the text
    [None]. *)
Theorem extract_text_from_none :
  extract_text_from_response fromstring PNone = Return EmptyString.
Proof. reflexivity. Qed.

(** C10. On a dictionary the preference keys are tried in the order answer,
    text, content, response, result: the value of the first key that is
    present and truthy is extracted, every key before it being absent or
    falsy; and when all five are skipped the result is [str] of the whole
    dictionary. *)
Theorem extract_text_dict_preference (d : list (string * pyval)) :
  (forall before field after v,
      ["answer"; "text"; "content"; "response"; "result"]
      = (before ++ field :: after)%list ->
      Forall (skipped d) before ->
      dict_get d field = Some v -> truthy v = true ->
      extract_text_from_response fromstring (PDict d)
      = extract_text_from_response fromstring v)
  /\ (Forall (skipped d) ["answer"; "text"; "content"; "response"; "result"] ->
      extract_text_from_response fromstring (PDict d) = Return (str (PDict d))).
Proof.
  split.
  - intros before field after v Hkeys Hb Hget Ht.
    rewrite extract_text_dict_eq. unfold preference_keys. rewrite Hkeys.
    rewrite (first_truthy_found d before after field v Hb Hget Ht). reflexivity.
  - intros Hall. rewrite extract_text_dict_eq. unfold preference_keys.
    rewrite (first_truthy_skipped d _ Hall). reflexivity.
Qed.

(** C3, as amended.  The recursion follows the nesting of the response: the
    depth of a call is at most one more than the number of dictionaries
    nested in the response.  (The function is structurally recursive on the
    response, so every call on a finite response returns.) *)
Theorem recursion_depth_le_nesting (response : pyval) :
  recursion_depth response <= S (nesting response).
Proof.
  induction response as [ | b | z | s | l _ | d IH] using pyval_nested_ind;
    try (cbn; lia).
  rewrite recursion_depth_dict_eq.
  destruct (first_truthy d preference_keys) as [v|] eqn:E; [|lia].
  destruct (first_truthy_In _ _ _ E) as [k Hin].
  pose proof (nesting_value _ _ _ Hin) as Hn.
  rewrite Forall_forall in IH. specialize (IH _ Hin). cbn [snd] in IH. lia.
Qed.

End WithParser.

(** C3, as stated, fails: five dictionaries nested under [answer] take the
    recursion to depth six, beyond the five preference keys. *)
Lemma recursion_depth_exceeds_keys :
  ~ recursion_depth (nested_answer 5) <= List.length preference_keys.
Proof. rewrite recursion_depth_nested_answer. cbn. lia. Qed.

Lemma extract_text_dict_preference_witness :
  extract_text_from_response xml_fromstring
    (PDict [("result", PStr "last"); ("note", PStr "n"); ("content", PInt 0);
            ("text", PStr "second"); ("answer", PStr EmptyString)])
  = extract_text_from_response xml_fromstring (PStr "second")
  /\ extract_text_from_response xml_fromstring
       (PDict [("answer", PNone); ("result", PList []); ("count", PInt 3)])
     = Return (str (PDict [("answer", PNone); ("result", PList []); ("count", PInt 3)])).
Proof.
  split.
  - apply (proj1 (extract_text_dict_preference xml_fromstring
                    [("result", PStr "last"); ("note", PStr "n"); ("content", PInt 0);
                     ("text", PStr "second"); ("answer", PStr EmptyString)])
                 ["answer"] "text" ["content"; "response"; "result"] (PStr "second")).
    + reflexivity.
    + constructor; [reflexivity|constructor].
    + reflexivity.
    + reflexivity.
  - apply (proj2 (extract_text_dict_preference xml_fromstring
                    [("answer", PNone); ("result", PList []); ("count", PInt 3)])).
    repeat (constructor; [first [reflexivity | exact I]|]). constructor.
Defined.

(** The falsy values of a key are passed over, whatever their type. *)
Example falsy_fields_are_skipped :
  extract_text_from_response xml_fromstring
    (PDict [("answer", PStr EmptyString); ("text", PNone); ("content", PInt 0);
            ("result", PStr "42 vendors")])
  = Return "42 vendors".
Proof. vm_compute. reflexivity. Qed.

Example no_truthy_field_gives_str :
  extract_text_from_response xml_fromstring
    (PDict [("answer", PStr EmptyString); ("count", PInt 3)])
  = Return "{'answer': '', 'count': 3}".
Proof. vm_compute. reflexivity. Qed.

End ResponseFields.

Module Dispatch.
Import PyStr Re ET PyVal TemplateUtils Spec.

Lemma has_marker_empty (d : dialect) : has_marker EmptyString d = false.
Proof. destruct d; reflexivity. Qed.

Lemma dispatch_eq (text : string) :
  dispatch text =
  let lowered := lower text in
  if contains "<recommendations>" lowered then Recommendations
  else if contains "<comparison_start>" lowered then Comparison
  else if contains "<statistical_analysis>" lowered then StatisticalAnalysis
  else if contains "<response_start>" lowered || contains "<answer>" lowered then Synthesis
  else if contains "<insufficient_data>" lowered then InsufficientData
  else Unrecognized.
Proof.
  unfold dispatch, priority, has_marker. cbn [List.find markers existsb].
  rewrite !orb_false_r. cbv zeta.
  repeat match goal with
         | |- context [ if ?b then _ else _ ] => destruct b; try reflexivity
         end.
Qed.

Section WithParser.
Variable fromstring : string -> parse_result.

Lemma extract_template_response_eq (text : string) :
  extract_template_response fromstring text = extractor fromstring (dispatch text) text.
Proof.
  destruct text as [|a s]; [reflexivity|].
  rewrite dispatch_eq. remember (String a s) as text eqn:Etext.
  unfold extract_template_response. rewrite Etext at 1. cbv zeta.
  destruct (contains "<recommendations>" (lower text)); [reflexivity|].
  destruct (contains "<comparison_start>" (lower text)); [reflexivity|].
  destruct (contains "<statistical_analysis>" (lower text)); [reflexivity|].
  destruct (contains "<response_start>" (lower text) || contains "<answer>" (lower text));
    [reflexivity|].
  assert (Hclean : (if String.eqb (clean_template_tags text) text
                    then text else clean_template_tags text) = clean_template_tags text).
  { destruct (String.eqb (clean_template_tags text) text) eqn:E; [|reflexivity].
    apply String.eqb_eq in E. congruence. }
  rewrite Hclean.
  destruct (contains "<insufficient_data>" (lower text)); reflexivity.
Qed.

(** C4. [extract_template_response] applies exactly one extractor, the one
    of the dialect that the probes select: the probes are case-insensitive
    substring tests, the selected dialect carries a marker found in the text
    unless no marker is found at all, and no dialect of higher priority has
    one, so that a text with several markers goes to the first of
    recommendations, comparison, statistical analysis, synthesis,
    insufficient data, and a text with none to the generic cleaning. *)
Theorem dispatch_first_marker_wins (text : string) :
  extract_template_response fromstring text = extractor fromstring (dispatch text) text
  /\ (dispatch text <> Unrecognized -> has_marker text (dispatch text) = true)
  /\ (forall d, has_marker text d = true -> rank (dispatch text) <= rank d).
Proof.
  split; [apply extract_template_response_eq|].
  rewrite dispatch_eq. unfold has_marker. cbv zeta.
  destruct (contains "<recommendations>" (lower text)) eqn:E1;
  destruct (contains "<comparison_start>" (lower text)) eqn:E2;
  destruct (contains "<statistical_analysis>" (lower text)) eqn:E3;
  destruct (contains "<response_start>" (lower text)) eqn:E4;
  destruct (contains "<answer>" (lower text)) eqn:E5;
  destruct (contains "<insufficient_data>" (lower text)) eqn:E6;
  cbn [orb]; (split; [intros H; try congruence; cbn [markers existsb];
                      rewrite ?E1, ?E2, ?E3, ?E4, ?E5, ?E6; reflexivity
                     | intros d; destruct d; cbn [markers existsb rank];
                       rewrite ?E1, ?E2, ?E3, ?E4, ?E5, ?E6; cbn [orb];
                       intros H; try discriminate H; lia]).
Qed.

(** C6. On a text that the generic cleaning leaves unchanged and that holds
    no dialect marker, extraction returns the text itself, and so does
    extraction applied to the result of extraction. *)
Theorem extract_idempotent_on_clean_text (text : string) :
  clean_template_tags text = text ->
  (forall d, has_marker text d = false) ->
  extract_template_response fromstring text = Return text
  /\ (once <- extract_template_response fromstring text ;;
      extract_template_response fromstring once) = Return text.
Proof.
  intros Hclean Hnone.
  assert (E : extract_template_response fromstring text = Return text).
  { rewrite extract_template_response_eq.
    assert (D : dispatch text = Unrecognized).
    { unfold dispatch, priority. cbn [List.find]. rewrite !Hnone. reflexivity. }
    rewrite D. cbn [extractor]. rewrite Hclean. reflexivity. }
  split; [exact E|]. rewrite E. cbn [bind]. exact E.
Qed.

(** C7. When the text carries the recommendations marker and the tree parse
    of the slice that starts at the marker fails, extraction returns the
    generic cleaning of the whole text: a value, not an exception. *)
Theorem malformed_recommendations_fall_back (text : string) :
  contains "<recommendations>" (lower text) = true ->
  fromstring (slice_from_find "<recommendations>" text) = ParseError ->
  extract_template_response fromstring text = Return (clean_template_tags text).
Proof.
  intros Hmarker Hparse. rewrite extract_template_response_eq, dispatch_eq.
  cbv zeta. rewrite Hmarker. cbn [extractor].
  unfold extract_recommendations_template. rewrite Hparse. reflexivity.
Qed.

(** The statistical extractor has the same fallback. *)
Lemma malformed_statistical_falls_back (text : string) :
  fromstring (slice_from_find "<statistical_analysis>" text) = ParseError ->
  extract_statistical_template fromstring text = Return (clean_template_tags text).
Proof.
  intros Hparse. unfold extract_statistical_template. rewrite Hparse. reflexivity.
Qed.

Lemma mapM_returns {A B : Type} (f : A -> result B) (l : list A) :
  Forall (fun a => exists b, f a = Return b) l -> exists bs, mapM f l = Return bs.
Proof.
  induction 1 as [|a l [b Hb] _ [bs Hbs]]; cbn [mapM].
  - exists []. reflexivity.
  - rewrite Hb. cbn [bind]. rewrite Hbs. cbn [bind]. exists (b :: bs). reflexivity.
Qed.

Lemma Forall_enumerate {A : Type} (P : A -> Prop) (l : list A) (start : nat) :
  Forall P l -> Forall (fun ia => P (snd ia)) (enumerate start l).
Proof.
  intros H. revert start. induction H as [|a l Ha _ IH]; intros start; cbn [enumerate].
  - constructor.
  - constructor; [exact Ha|apply IH].
Qed.

(** The statistical extractor returns whenever the elements it reads the
    text of have one. *)
Lemma statistical_returns (text : string) (root : Element) :
  fromstring (slice_from_find "<statistical_analysis>" text) = Parsed root ->
  Forall (fun e => ET.text e <> None) (findall ["findings"; "finding"] root) ->
  Forall (fun e => ET.text e <> None) (findall ["recommendations"; "recommendation"] root) ->
  exists s, extract_statistical_template fromstring text = Return s.
Proof.
  intros Hparse Hf Hr. unfold extract_statistical_template. rewrite Hparse. cbv zeta.
  assert (Hstrip : forall e, ET.text e <> None -> exists t, text_strip e = Return t).
  { intros e He. unfold text_strip. destruct (ET.text e) as [x|]; [|contradiction].
    exists (strip x). reflexivity. }
  destruct (mapM_returns
              (fun jf => t <- text_strip (snd jf) ;; Return (of_nat (fst jf) ++ ". " ++ t))
              (enumerate 1 (findall ["findings"; "finding"] root))) as [lines1 H1].
  { eapply Forall_impl; [|apply (Forall_enumerate _ _ 1 Hf)].
    intros [i e] He. cbn [fst snd] in *. destruct (Hstrip e He) as [t Ht].
    rewrite Ht. cbn [bind]. eexists. reflexivity. }
  destruct (mapM_returns (fun rec => t <- text_strip rec ;; Return ("- " ++ t))
              (findall ["recommendations"; "recommendation"] root)) as [lines2 H2].
  { eapply Forall_impl; [|exact Hr].
    intros e He. cbn beta in *. destruct (Hstrip e He) as [t Ht].
    rewrite Ht. cbn [bind]. eexists. reflexivity. }
  destruct (findall ["findings"; "finding"] root) as [|f fs];
    destruct (findall ["recommendations"; "recommendation"] root) as [|r rs];
    rewrite ?H1, ?H2; cbn [bind];
    match goal with
    | |- exists s, match ?x with _ => _ end = _ => destruct x; eexists; reflexivity
    end.
Qed.

(** Outside the statistical dialect every extraction returns. *)
Lemma only_statistical_raises (text : string) :
  dispatch text <> StatisticalAnalysis ->
  exists s, extract_template_response fromstring text = Return s.
Proof.
  intros H. rewrite extract_template_response_eq.
  destruct (dispatch text); cbn [extractor]; try (eexists; reflexivity).
  - contradiction.
  - destruct (extract_insufficient_data text); eexists; reflexivity.
Qed.

End WithParser.

Lemma extract_idempotent_on_clean_text_witness :
  extract_template_response xml_fromstring "Total spending was $1.2M."
  = Return "Total spending was $1.2M."
  /\ (once <- extract_template_response xml_fromstring "Total spending was $1.2M." ;;
      extract_template_response xml_fromstring once) = Return "Total spending was $1.2M.".
Proof.
  apply (extract_idempotent_on_clean_text xml_fromstring "Total spending was $1.2M.").
  - vm_compute. reflexivity.
  - intros d. destruct d; vm_compute; reflexivity.
Defined.

Lemma malformed_recommendations_fall_back_witness :
  extract_template_response xml_fromstring
    "<recommendations><recommendation><action>Buy  more</action>"
  = Return "Buy more".
Proof.
  apply (malformed_recommendations_fall_back xml_fromstring
           "<recommendations><recommendation><action>Buy  more</action>").
  - vm_compute. reflexivity.
  - vm_compute. reflexivity.
Defined.

(** C1. A statistical block with a finding that holds no text parses, and
    the extractor then raises [AttributeError] at [f.text.strip()]: the
    exception is not one the [except] clause names, and it reaches the
    caller of [extract_template_response]. *)
Theorem empty_finding_raises :
  extract_template_response xml_fromstring
    "<statistical_analysis><findings><finding></finding></findings></statistical_analysis>"
  = Raise AttributeError.
Proof. vm_compute. reflexivity. Qed.

(** The same through [extract_text_from_response]. *)
Example empty_finding_raises_through_response :
  extract_text_from_response xml_fromstring
    (PDict [("answer",
             PStr "<statistical_analysis><findings><finding/></findings></statistical_analysis>")])
  = Raise AttributeError.
Proof. vm_compute. reflexivity. Qed.

End Dispatch.

Module Recommendations.
Import PyStr Re ET PyVal TemplateUtils Spec.

Lemma flat_map_singleton {A : Type} (l : list A) : flat_map (fun x => [x]) l = l.
Proof. induction l as [|x l IH]; cbn; congruence. Qed.

Lemma findall_one (name : string) (e : Element) :
  findall [name] e = filter (fun c => String.eqb (tag c) name) (children e).
Proof. cbn [findall]. apply flat_map_singleton. Qed.

Lemma filter_first {A : Type} (p : A -> bool) (l : list A) :
  match filter p l with
  | [] => forall x, In x l -> p x = false
  | c :: _ => exists before after,
      l = (before ++ c :: after)%list /\ (forall b, In b before -> p b = false) /\ p c = true
  end.
Proof.
  induction l as [|x l IH]; cbn [filter].
  - intros x [].
  - destruct (p x) eqn:E.
    + exists [], l. repeat split; [intros b []|exact E].
    + destruct (filter p l) as [|c r].
      * intros y [<-|H]; [exact E|exact (IH y H)].
      * destruct IH as (before & after & -> & Hb & Hc).
        exists (x :: before), after. repeat split; [|exact Hc].
        intros b [<-|H]; [exact E|exact (Hb b H)].
Qed.

Lemma findtext_or_sub_field (e : Element) (name default : string) :
  sub_field e name default (findtext_or [name] default e).
Proof.
  unfold findtext_or, findtext. rewrite findall_one.
  pose proof (filter_first (fun c => String.eqb (tag c) name) (children e)) as H.
  destruct (filter (fun c => String.eqb (tag c) name) (children e)) as [|c r].
  - apply sub_field_absent. intros c Hc E. specialize (H c Hc). cbn in H.
    apply String.eqb_neq in H. contradiction.
  - destruct H as (before & after & Hsplit & Hb & Hc).
    assert (E : match match text c with None => Some EmptyString | Some x => Some x end with
                | Some x => x
                | None => default
                end = match text c with Some x => x | None => EmptyString end).
    { destruct (text c); reflexivity. }
    rewrite E. eapply sub_field_present; [exact Hsplit| |apply String.eqb_eq; exact Hc].
    intros b Hin Eb. specialize (Hb b Hin). cbn in Hb.
    apply String.eqb_neq in Hb. contradiction.
Qed.

Lemma nth_error_enumerate {A : Type} (l : list A) (start i : nat) :
  nth_error (enumerate start l) i = option_map (fun x => (start + i, x)) (nth_error l i).
Proof.
  revert start i. induction l as [|a l IH]; intros start [|i]; cbn; try reflexivity.
  - rewrite Nat.add_0_r. reflexivity.
  - rewrite IH. rewrite Nat.add_succ_r. reflexivity.
Qed.

Lemma length_enumerate {A : Type} (l : list A) (start : nat) :
  List.length (enumerate start l) = List.length l.
Proof. revert start. induction l as [|a l IH]; intros start; cbn; congruence. Qed.

Section WithParser.
Variable fromstring : string -> parse_result.

(** C8. When the recommendations block parses and its root has
    recommendation children, the output is the heading followed by one
    numbered entry per recommendation, in order; in each entry the action,
    the justification and the priority are the sub-fields of the element:
    the text of the first child with that tag, unchanged, and otherwise the
    default, which is [Medium] for the priority. *)
Theorem recommendations_rendering (text : string) (root : Element) :
  fromstring (slice_from_find "<recommendations>" text) = Parsed root ->
  filter (fun c => String.eqb (tag c) "recommendation") (children root) <> [] ->
  exists lines,
    extract_recommendations_template fromstring text
    = "Strategic Recommendations:" ++ LF ++ LF ++ join (LF ++ LF) lines
    /\ List.length lines
       = List.length (filter (fun c => String.eqb (tag c) "recommendation") (children root))
    /\ forall i rec,
         nth_error (filter (fun c => String.eqb (tag c) "recommendation") (children root)) i
         = Some rec ->
         exists action justification priority,
           sub_field rec "action" "N/A" action
           /\ sub_field rec "justification" "N/A" justification
           /\ sub_field rec "priority" "Medium" priority
           /\ nth_error lines i
              = Some (of_nat (S i) ++ ". " ++ action ++ " (Priority: " ++ priority ++ ")"
                        ++ LF ++ "   Justification: " ++ justification).
Proof.
  intros Hparse Hrecs.
  unfold extract_recommendations_template. rewrite Hparse, findall_one.
  set (recs := filter (fun c => String.eqb (tag c) "recommendation") (children root)) in *.
  exists (map format_recommendation (enumerate 1 recs)).
  split; [|split].
  - destruct recs as [|r recs']; [contradiction|]. reflexivity.
  - rewrite length_map. apply length_enumerate.
  - intros i rec Hi.
    exists (findtext_or ["action"] "N/A" rec),
           (findtext_or ["justification"] "N/A" rec),
           (findtext_or ["priority"] "Medium" rec).
    repeat split; try apply findtext_or_sub_field.
    rewrite nth_error_map, nth_error_enumerate, Hi. reflexivity.
Qed.

End WithParser.

Lemma recommendations_rendering_witness :
  exists lines,
    extract_recommendations_template xml_fromstring lower_case_block
    = "Strategic Recommendations:" ++ LF ++ LF ++ join (LF ++ LF) lines
    /\ List.length lines = 1
    /\ forall i rec,
         nth_error [Elem "recommendation" None [Elem "action" (Some "Buy") [] None] None] i
         = Some rec ->
         exists action justification priority,
           sub_field rec "action" "N/A" action
           /\ sub_field rec "justification" "N/A" justification
           /\ sub_field rec "priority" "Medium" priority
           /\ nth_error lines i
              = Some (of_nat (S i) ++ ". " ++ action ++ " (Priority: " ++ priority ++ ")"
                        ++ LF ++ "   Justification: " ++ justification).
Proof.
  apply (recommendations_rendering xml_fromstring lower_case_block
           (Elem "recommendations" None
                 [Elem "recommendation" None [Elem "action" (Some "Buy") [] None] None]
                 None)).
  - vm_compute. reflexivity.
  - vm_compute. discriminate.
Defined.

(** A recommendation with every sub-field, and one with none. *)
Example recommendation_with_and_without_fields :
  extract_recommendations_template xml_fromstring
    "Plan: <recommendations><recommendation><action>Consolidate vendors for office supplies.</action><justification>High number of vendors with low spending per vendor.</justification><priority>HIGH</priority></recommendation><recommendation/></recommendations>"
  = "Strategic Recommendations:" ++ LF ++ LF
    ++ "1. Consolidate vendors for office supplies. (Priority: HIGH)" ++ LF
    ++ "   Justification: High number of vendors with low spending per vendor."
    ++ LF ++ LF
    ++ "2. N/A (Priority: Medium)" ++ LF
    ++ "   Justification: N/A".
Proof. vm_compute. reflexivity. Qed.

(** C2. The tags inside a tree-parsed block are matched with their case:
    the two blocks below differ only in the case of the tag of the
    recommendation element, and the first is rendered as a recommendation
    while the second is reported to hold none. *)
Theorem subfield_tag_case_changes_result :
  lower upper_case_block = lower lower_case_block
  /\ extract_template_response xml_fromstring lower_case_block
     = Return ("Strategic Recommendations:" ++ LF ++ LF
               ++ "1. Buy (Priority: Medium)" ++ LF ++ "   Justification: N/A")
  /\ extract_template_response xml_fromstring upper_case_block
     = Return "No recommendations provided.".
Proof. repeat split; vm_compute; reflexivity. Qed.

(** A statistical block with its tags in upper case, and the same block in
    lower case. *)
Example upper_case_statistical_block :
  extract_template_response xml_fromstring
    "<STATISTICAL_ANALYSIS><SUMMARY>Stable spending.</SUMMARY><FINDINGS><FINDING>Median is close to the mean.</FINDING></FINDINGS></STATISTICAL_ANALYSIS>"
  = Return "Could not extract statistical analysis from the response.".
Proof. vm_compute. reflexivity. Qed.

Example lower_case_statistical_block :
  extract_template_response xml_fromstring
    "<statistical_analysis><summary>Stable spending.</summary><findings><finding>Median is close to the mean.</finding></findings></statistical_analysis>"
  = Return ("Summary: Stable spending." ++ LF ++ LF ++ "Key Findings:" ++ LF
            ++ "1. Median is close to the mean." ++ LF).
Proof. vm_compute. reflexivity. Qed.

End Recommendations.

Module Comparison.
Import PyStr Re ET PyVal TemplateUtils Spec.

Lemma append_assoc (a b c : string) : (a ++ b) ++ c = a ++ b ++ c.
Proof. induction a as [|x a IH]; cbn; congruence. Qed.

Lemma length_append (a b : string) :
  String.length (a ++ b) = String.length a + String.length b.
Proof. induction a as [|x a IH]; cbn; congruence. Qed.

Lemma take_append (a b : string) : take (String.length a) (a ++ b) = a.
Proof. induction a as [|x a IH]; cbn; [destruct b; reflexivity|congruence]. Qed.

Lemma startswith_fold (icase : bool) (l s : string) :
  startswith (fold icase l) (fold icase s) = true ->
  exists w, s = w ++ drop (String.length l) s /\ fold icase w = fold icase l.
Proof.
  revert s. induction l as [|a l IH]; intros s H.
  - exists EmptyString. split; reflexivity.
  - destruct s as [|b s]; [destruct icase; discriminate H|].
    assert (H' : (if icase then Ascii.eqb (lower_char a) (lower_char b) else Ascii.eqb a b)
                 = true /\ startswith (fold icase l) (fold icase s) = true).
    { destruct icase; cbn in H; apply andb_true_iff in H; exact H. }
    destruct H' as [Hc Hs]. destruct (IH s Hs) as (w & Hw & Hf).
    exists (String b w). cbn [drop String.length String.append]. split; [f_equal; exact Hw|].
    destruct icase; cbn [fold lower] in *; apply Ascii.eqb_eq in Hc; congruence.
Qed.








Lemma vendor_lines_length (text : string) (i : nat) :
  List.length (vendor_lines text i) <= 4.
Proof.
  unfold vendor_lines. destruct (search true (vendor_pattern i) text); cbn; lia.
Qed.

Lemma flat_map_length_le {A B : Type} (f : A -> list B) (n : nat) (l : list A) :
  (forall a, List.length (f a) <= n) ->
  List.length (flat_map f l) <= n * List.length l.
Proof.
  intros H. induction l as [|a l IH]; cbn [flat_map List.length]; [lia|].
  rewrite length_app. specialize (H a). lia.
Qed.



(** The comparison block of the unit tests, without its indentation. *)
Example comparison_block_of_the_tests :
  extract_comparison_template
    ("<COMPARISON_START><SUMMARY>DELL INC has higher total spending.</SUMMARY>" ++ LF
     ++ "<VENDOR1><NAME>DELL INC</NAME><PERFORMANCE>Total spending: $1500.00</PERFORMANCE></VENDOR1>"
     ++ LF ++ "</COMPARISON_START>")
  = "Summary: DELL INC has higher total spending." ++ LF ++ LF
    ++ "**DELL INC**" ++ LF
    ++ "Performance: Total spending: $1500.00" ++ LF
    ++ "Strengths: Not specified" ++ LF
    ++ "Concerns: None identified" ++ LF.
Proof. vm_compute. reflexivity. Qed.

(** A block numbered 11 is not looked for; one numbered 10 is, and a field
    that is present is carried over trimmed. *)
Example vendor_eleven_is_ignored :
  extract_comparison_template
    "<comparison_start><vendor11><name>A</name><performance>p</performance></vendor11><vendor10><name> B </name><performance>q</performance><concerns> late </concerns></vendor10>"
  = "**B**" ++ LF ++ "Performance: q" ++ LF ++ "Strengths: Not specified" ++ LF
    ++ "Concerns: late" ++ LF.
Proof. vm_compute. reflexivity. Qed.

(** A block without a PERFORMANCE field contributes no entry. *)
Example vendor_without_performance :
  vendor_lines "<VENDOR1><NAME>DELL INC</NAME><STRENGTHS>price</STRENGTHS></VENDOR1>" 1 = [].
Proof. vm_compute. reflexivity. Qed.

End Comparison.

Module Cleaning.
Import PyStr Re ET PyVal TemplateUtils Spec.

Lemma flat_map_nil {A B : Type} (f : A -> list B) (l : list A) :
  (forall x, In x l -> f x = []) -> flat_map f l = [].
Proof.
  induction l as [|a l IH]; intros H; cbn [flat_map]; [reflexivity|].
  rewrite (H a (or_introl eq_refl)), IH; [reflexivity|].
  intros x Hx. apply H. right. exact Hx.
Qed.

Lemma spans_split (k : cclass) (s : string) :
  exists init,
    spans k s = (init ++ [skip_class k s])%list
    /\ Forall (fun x => exists c x', x = String c x' /\ in_class k c = true) init
    /\ (init = [] <-> skip_class k s = s).
Proof.
  induction s as [|c s IH].
  - exists []. cbn. repeat split; constructor.
  - cbn [spans skip_class]. destruct (in_class k c) eqn:E.
    + destruct IH as (init & -> & Hall & _).
      exists (String c s :: init). cbn [app]. split; [reflexivity|]. split.
      * constructor; [exists c, s; split; [reflexivity|exact E]|exact Hall].
      * split; [discriminate|].
        intros H. exfalso.
        assert (L : forall x, String.length (skip_class k x) <= String.length x).
        { clear. induction x as [|d x IH]; cbn; [lia|].
          destruct (in_class k d); cbn; lia. }
        specialize (L s). rewrite H in L. cbn in L. lia.
    + exists []. cbn. repeat split; constructor.
Qed.

Lemma skip_not_gt (s : string) :
  skip_class (NotChar ">") s
  = if has_char ">" s then String ">" (after_gt s) else EmptyString.
Proof.
  induction s as [|c s IH]; [reflexivity|].
  cbn [skip_class in_class has_char after_gt]. rewrite (Ascii.eqb_sym ">" c).
  destruct (Ascii.eqb c ">") eqn:E; cbn [negb orb].
  - apply Ascii.eqb_eq in E. subst. reflexivity.
  - exact IH.
Qed.

Lemma skip_space (s : string) : skip_class Space s = lstrip s.
Proof.
  induction s as [|c s IH]; [reflexivity|].
  cbn [skip_class in_class lstrip]. destruct (isspace c); [exact IH|reflexivity].
Qed.

(** The candidates of a greedy repetition of at least one character: none
    when the text does not start in the class, and otherwise the end of the
    run first, followed by suffixes that start inside the run. *)
Lemma greedy_plus_candidates (k : cclass) (s : string) :
  match s with
  | EmptyString => rev (skipn 1 (spans k s)) = []
  | String c s' =>
      if in_class k c then
        exists inner,
          rev (skipn 1 (spans k s)) = skip_class k s :: inner
          /\ Forall (fun x => exists d x', x = String d x' /\ in_class k d = true) inner
      else rev (skipn 1 (spans k s)) = []
  end.
Proof.
  destruct s as [|c s]; [reflexivity|].
  cbn [spans skipn skip_class]. destruct (in_class k c) eqn:E; [|reflexivity].
  destruct (spans_split k s) as (init & -> & Hall & _).
  exists (rev init). rewrite rev_app_distr. split; [reflexivity|].
  apply Forall_rev. exact Hall.
Qed.

(** What the tag pattern matches at the head of a text. *)
Lemma run_tag_pattern (s : string) :
  run false tag_pattern s []
  = match s with
    | EmptyString => []
    | String c s' =>
        if Ascii.eqb c "<" && opens_tag s' then [(after_gt s', [])] else []
    end.
Proof.
  destruct s as [|c s]; [reflexivity|].
  unfold tag_pattern. cbn [run fold startswith String.length drop].
  rewrite (Ascii.eqb_sym "<" c), andb_true_r.
  destruct (Ascii.eqb c "<"); cbn [andb flat_map fst snd]; [|reflexivity].
  rewrite app_nil_r.
  pose proof (greedy_plus_candidates (NotChar ">") s) as H.
  destruct s as [|d s].
  - cbn in H |- *. reflexivity.
  - cbn [opens_tag]. cbn [in_class] in H. rewrite (Ascii.eqb_sym ">" d) in H.
    destruct (Ascii.eqb d ">") eqn:E; cbn [negb andb] in *.
    + rewrite H. reflexivity.
    + destruct H as (inner & -> & Hall).
      cbn [map flat_map fst snd].
      match goal with
      | |- context [ flat_map ?f ?l ] => rewrite (flat_map_nil f l)
      end.
      * rewrite app_nil_r, skip_not_gt.
        destruct (has_char ">" (String d s)) eqn:Hc; reflexivity.
      * intros [x gx] Hx. apply in_map_iff in Hx. destruct Hx as (y & [= <- <-] & Hy).
        rewrite Forall_forall in Hall. destruct (Hall _ Hy) as (e & y' & -> & He).
        cbn [fst snd startswith fold]. cbn [in_class] in He.
        destruct (Ascii.eqb ">" e); [discriminate He|reflexivity].
Qed.

(** What the white-space pattern matches at the head of a text. *)
Lemma run_spaces_pattern (s : string) :
  match s with
  | EmptyString => run false spaces_pattern s [] = []
  | String c _ =>
      if isspace c then exists l, run false spaces_pattern s [] = (lstrip s, []) :: l
      else run false spaces_pattern s [] = []
  end.
Proof.
  unfold spaces_pattern. cbn [run].
  pose proof (greedy_plus_candidates Space s) as H.
  destruct s as [|c s]; [reflexivity|].
  cbn [in_class] in H. destruct (isspace c).
  - destruct H as (inner & -> & _). rewrite skip_space.
    cbn [map]. eexists. reflexivity.
  - rewrite H. reflexivity.
Qed.

Lemma after_gt_length (s : string) : String.length (after_gt s) <= String.length s.
Proof.
  induction s as [|c s IH]; cbn; [lia|]. destruct (Ascii.eqb c ">"); cbn; lia.
Qed.

Lemma lstrip_length (s : string) : String.length (lstrip s) <= String.length s.
Proof.
  induction s as [|c s IH]; cbn; [lia|]. destruct (isspace c); cbn; lia.
Qed.

(** [re.sub] with the tag pattern is the tag scanner. *)
Lemma sub_tag_pattern (s : string) :
  sub_from tag_pattern EmptyString s 0 = strip_tags s false
  /\ (has_char ">" s = true ->
      sub_from tag_pattern EmptyString s (String.length s - String.length (after_gt s))
      = strip_tags s true).
Proof.
  induction s as [|c s [IHa IHb]]; [split; [reflexivity|discriminate]|].
  split.
  - cbn [sub_from strip_tags]. rewrite run_tag_pattern.
    destruct (Ascii.eqb c "<" && opens_tag s) eqn:E.
    + apply andb_true_iff in E. destruct E as [_ E].
      assert (Hgt : has_char ">" s = true).
      { destruct s as [|d s]; [discriminate E|].
        cbn [opens_tag] in E. apply andb_true_iff in E. exact (proj2 E). }
      pose proof (after_gt_length s) as L.
      replace (String.length (String c s) - String.length (after_gt s))
        with (S (String.length s - String.length (after_gt s))) by (cbn [String.length]; lia).
      cbn [String.append]. exact (IHb Hgt).
    + rewrite IHa. reflexivity.
  - intros H. cbn [has_char after_gt strip_tags] in *.
    destruct (Ascii.eqb c ">") eqn:E; cbn [negb orb] in *.
    + replace (String.length (String c s) - String.length s) with 1 by (cbn [String.length]; lia).
      cbn [sub_from]. exact IHa.
    + pose proof (after_gt_length s) as L.
      replace (String.length (String c s) - String.length (after_gt s))
        with (S (String.length s - String.length (after_gt s))) by (cbn [String.length]; lia).
      cbn [sub_from]. exact (IHb H).
Qed.

(** [re.sub] with the white-space pattern is the white-space scanner. *)
Lemma sub_spaces_pattern (s : string) :
  sub_from spaces_pattern " " s 0 = collapse s false
  /\ sub_from spaces_pattern " " s (String.length s - String.length (lstrip s))
     = collapse s true.
Proof.
  induction s as [|c s [IHa IHb]]; [split; reflexivity|].
  assert (Ha : sub_from spaces_pattern " " (String c s) 0 = collapse (String c s) false).
  { cbn [sub_from collapse]. pose proof (run_spaces_pattern (String c s)) as H.
    cbn beta iota in H. destruct (isspace c) eqn:E.
    - destruct H as (l & ->). cbn [lstrip]. rewrite E.
      pose proof (lstrip_length s) as L.
      replace (String.length (String c s) - String.length (lstrip s))
        with (S (String.length s - String.length (lstrip s))) by (cbn [String.length]; lia).
      rewrite IHb. reflexivity.
    - rewrite H, IHa. reflexivity. }
  split; [exact Ha|].
  cbn [lstrip]. destruct (isspace c) eqn:E.
  - pose proof (lstrip_length s) as L.
    replace (String.length (String c s) - String.length (lstrip s))
      with (S (String.length s - String.length (lstrip s))) by (cbn [String.length]; lia).
    cbn [sub_from collapse]. rewrite E. exact IHb.
  - rewrite Nat.sub_diag, Ha. cbn [collapse]. rewrite E. reflexivity.
Qed.

(** [clean_template_tags] is the two scanners followed by [strip]. *)
Lemma clean_template_tags_eq (text : string) :
  clean_template_tags text = strip (collapse (strip_tags text false) false).
Proof.
  unfold clean_template_tags, Re.sub.
  rewrite (proj1 (sub_tag_pattern text)), (proj1 (sub_spaces_pattern _)). reflexivity.
Qed.

(** *** [strip] *)

Lemma rstrip_length (s : string) : String.length (rstrip s) <= String.length s.
Proof.
  induction s as [|c s IH]; cbn [rstrip]; [lia|].
  destruct (rstrip s); [destruct (isspace c)|]; cbn [String.length] in *; lia.
Qed.

Lemma strip_length (s : string) : String.length (strip s) <= String.length s.
Proof.
  unfold strip. pose proof (rstrip_length (lstrip s)). pose proof (lstrip_length s). lia.
Qed.

(** [rstrip] keeps a first character that is not white space. *)
Lemma rstrip_cons (c : ascii) (s : string) :
  isspace c = false -> rstrip (String c s) = String c (rstrip s).
Proof. intros H. cbn [rstrip]. rewrite H. destruct (rstrip s); reflexivity. Qed.

Lemma lstrip_first (s : string) (c : ascii) (s' : string) :
  lstrip s = String c s' -> isspace c = false.
Proof.
  induction s as [|d s IH]; cbn [lstrip]; [discriminate|].
  destruct (isspace d) eqn:E; [exact IH|]. intros [= <- <-]. exact E.
Qed.

Lemma strip_first (s : string) (c : ascii) (s' : string) :
  strip s = String c s' -> isspace c = false.
Proof.
  unfold strip. destruct (lstrip s) as [|d r] eqn:E; [discriminate|].
  pose proof (lstrip_first _ _ _ E) as Hd. rewrite (rstrip_cons _ _ Hd).
  intros [= <- <-]. exact Hd.
Qed.

Lemma rstrip_last (s a : string) (c : ascii) :
  rstrip s = a ++ String c EmptyString -> isspace c = false.
Proof.
  revert a. induction s as [|d s IH]; intros a; cbn [rstrip].
  - destruct a; discriminate.
  - destruct (rstrip s) as [|e r] eqn:E.
    + destruct (isspace d) eqn:Hd; [destruct a; discriminate|].
      destruct a as [|x a]; [intros [= <-]; exact Hd|].
      destruct a; discriminate.
    + destruct a as [|x a]; [discriminate|].
      intros [= <- H]. exact (IH a H).
Qed.

Lemma rstrip_idempotent (s : string) : rstrip (rstrip s) = rstrip s.
Proof.
  induction s as [|c s IH]; [reflexivity|]. cbn [rstrip].
  destruct (rstrip s) as [|d r] eqn:E.
  - destruct (isspace c) eqn:Hc; [reflexivity|]. cbn [rstrip]. rewrite Hc. reflexivity.
  - cbn [rstrip]. cbn [rstrip] in IH.
    destruct (match rstrip r with
              | EmptyString => if isspace d then EmptyString else String d EmptyString
              | String a s0 => String d (String a s0)
              end) eqn:E2; [discriminate IH|].
    rewrite IH. reflexivity.
Qed.

Lemma strip_idempotent (s : string) : strip (strip s) = strip s.
Proof.
  unfold strip at 1. destruct (strip s) as [|c r] eqn:E; [reflexivity|].
  pose proof (strip_first _ _ _ E) as Hc. cbn [lstrip]. rewrite Hc.
  rewrite <- E. unfold strip. apply rstrip_idempotent.
Qed.

(** *** Lengths *)

Lemma strip_tags_length (s : string) (b : bool) :
  String.length (strip_tags s b) <= String.length s.
Proof.
  revert b. induction s as [|c s IH]; intros b; cbn [strip_tags String.length]; [lia|].
  destruct b; [specialize (IH (negb (Ascii.eqb c ">"))); lia|].
  destruct (Ascii.eqb c "<" && opens_tag s).
  - specialize (IH true). lia.
  - specialize (IH false). cbn [String.length]. lia.
Qed.

Lemma collapse_length (s : string) (b : bool) :
  String.length (collapse s b) <= String.length s.
Proof.
  revert b. induction s as [|c s IH]; intros b; cbn [collapse String.length]; [lia|].
  pose proof (IH true). pose proof (IH false).
  destruct (isspace c); [destruct b|]; cbn [String.length]; lia.
Qed.

(** *** What the scanners leave *)

Lemma opens_tag_has_gt (s : string) : opens_tag s = true -> has_char ">" s = true.
Proof.
  destruct s as [|c s]; [discriminate|]. cbn [opens_tag].
  intros H. apply andb_true_iff in H. exact (proj2 H).
Qed.

(** A transformation that creates no [>], keeps a leading [>] and keeps the
    empty text empty does not make a text open a tag. *)
Lemma opens_tag_preserved (T : string -> string) :
  (forall s, has_char ">" (T s) = true -> has_char ">" s = true) ->
  (forall s, exists r, T (String ">" s) = String ">" r) ->
  T EmptyString = EmptyString ->
  forall s, opens_tag (T s) = true -> opens_tag s = true.
Proof.
  intros Hgt Hkeep Hnil s H. destruct s as [|c s].
  - rewrite Hnil in H. discriminate H.
  - cbn [opens_tag]. destruct (Ascii.eqb c ">") eqn:E.
    + apply Ascii.eqb_eq in E. subst c. destruct (Hkeep s) as [r Hr].
      rewrite Hr in H. discriminate H.
    + cbn [negb andb]. apply Hgt. apply opens_tag_has_gt. exact H.
Qed.

Lemma has_gt_strip_tags (s : string) (b : bool) :
  has_char ">" (strip_tags s b) = true -> has_char ">" s = true.
Proof.
  revert b. induction s as [|c s IH]; intros b; cbn [strip_tags has_char]; [trivial|].
  destruct b.
  - intros H. rewrite (IH _ H). apply orb_true_r.
  - destruct (Ascii.eqb c "<" && opens_tag s).
    + intros H. rewrite (IH _ H). apply orb_true_r.
    + cbn [has_char]. intros H. apply orb_true_iff in H. destruct H as [H|H].
      * rewrite H. reflexivity.
      * rewrite (IH _ H). apply orb_true_r.
Qed.

Lemma has_gt_collapse (s : string) (b : bool) :
  has_char ">" (collapse s b) = true -> has_char ">" s = true.
Proof.
  revert b. induction s as [|c s IH]; intros b; cbn [collapse has_char]; [trivial|].
  destruct (isspace c); [destruct b|]; cbn [has_char]; intros H.
  - rewrite (IH _ H). apply orb_true_r.
  - cbn in H. rewrite (IH _ H). apply orb_true_r.
  - apply orb_true_iff in H. destruct H as [H|H].
    + rewrite H. reflexivity.
    + rewrite (IH _ H). apply orb_true_r.
Qed.

Lemma has_gt_rstrip (s : string) :
  has_char ">" (rstrip s) = true -> has_char ">" s = true.
Proof.
  induction s as [|c s IH]; cbn [rstrip has_char]; [trivial|].
  destruct (rstrip s) as [|d r].
  - destruct (isspace c); cbn [has_char]; [discriminate|].
    rewrite orb_false_r. intros ->. reflexivity.
  - cbn [has_char] in *. intros H. apply orb_true_iff in H. destruct H as [H|H].
    + rewrite H. reflexivity.
    + rewrite (IH H). apply orb_true_r.
Qed.

Lemma opens_tag_strip_tags (s : string) :
  opens_tag (strip_tags s false) = true -> opens_tag s = true.
Proof.
  apply (opens_tag_preserved (fun x => strip_tags x false)).
  - intros x. apply has_gt_strip_tags.
  - intros x. eexists. reflexivity.
  - reflexivity.
Qed.

Lemma opens_tag_collapse (s : string) :
  opens_tag (collapse s false) = true -> opens_tag s = true.
Proof.
  apply (opens_tag_preserved (fun x => collapse x false)).
  - intros x. apply has_gt_collapse.
  - intros x. eexists. reflexivity.
  - reflexivity.
Qed.

Lemma opens_tag_rstrip (s : string) :
  opens_tag (rstrip s) = true -> opens_tag s = true.
Proof.
  apply (opens_tag_preserved rstrip).
  - apply has_gt_rstrip.
  - intros x. exists (rstrip x). apply rstrip_cons. reflexivity.
  - reflexivity.
Qed.

(** A head that opens no tag before the transformation opens none after. *)
Lemma head_closed (c : ascii) (s t : string) :
  (opens_tag t = true -> opens_tag s = true) ->
  Ascii.eqb c "<" && opens_tag s = false ->
  Ascii.eqb c "<" && opens_tag t = false.
Proof.
  intros H E. destruct (Ascii.eqb c "<"); [|reflexivity]. cbn [andb] in *.
  destruct (opens_tag t); [|reflexivity]. rewrite H in E; [discriminate E|reflexivity].
Qed.

Lemma tag_free_strip_tags (s : string) (b : bool) : tag_free (strip_tags s b) = true.
Proof.
  revert b. induction s as [|c s IH]; intros b; cbn [strip_tags]; [reflexivity|].
  destruct b; [apply IH|].
  destruct (Ascii.eqb c "<" && opens_tag s) eqn:E; [apply IH|].
  cbn [tag_free]. rewrite (head_closed c s _ (opens_tag_strip_tags s) E), IH. reflexivity.
Qed.

Lemma tag_free_collapse (s : string) (b : bool) :
  tag_free s = true -> tag_free (collapse s b) = true.
Proof.
  revert b. induction s as [|c s IH]; intros b; cbn [collapse tag_free]; [trivial|].
  intros H. apply andb_true_iff in H. destruct H as [Hc Hs].
  apply negb_true_iff in Hc.
  destruct (isspace c) eqn:E.
  - destruct b; [exact (IH _ Hs)|]. cbn [tag_free]. exact (IH _ Hs).
  - cbn [tag_free]. rewrite (head_closed c s _ (opens_tag_collapse s) Hc), (IH _ Hs).
    reflexivity.
Qed.

Lemma tag_free_lstrip (s : string) : tag_free s = true -> tag_free (lstrip s) = true.
Proof.
  induction s as [|c s IH]; cbn [lstrip]; [trivial|].
  destruct (isspace c); [|trivial].
  cbn [tag_free]. intros H. apply andb_true_iff in H. exact (IH (proj2 H)).
Qed.

Lemma tag_free_rstrip (s : string) : tag_free s = true -> tag_free (rstrip s) = true.
Proof.
  induction s as [|c s IH]; [trivial|].
  cbn [tag_free]. intros H. apply andb_true_iff in H. destruct H as [Hc Hs].
  apply negb_true_iff in Hc. specialize (IH Hs).
  pose proof (head_closed c s _ (opens_tag_rstrip s) Hc) as Hc'.
  cbn [rstrip]. destruct (rstrip s) as [|d r].
  - destruct (isspace c); [reflexivity|]. cbn [tag_free opens_tag].
    rewrite andb_false_r. reflexivity.
  - cbn [tag_free] in *. rewrite Hc'. exact IH.
Qed.

Lemma tag_free_fixed (s : string) : tag_free s = true -> strip_tags s false = s.
Proof.
  induction s as [|c s IH]; [trivial|]. cbn [tag_free strip_tags].
  intros H. apply andb_true_iff in H. destruct H as [Hc Hs].
  apply negb_true_iff in Hc. rewrite Hc, (IH Hs). reflexivity.
Qed.

Lemma tag_free_no_match (s : string) (pos : nat) :
  tag_free s = true -> search_from false tag_pattern s pos = None.
Proof.
  revert pos. induction s as [|c s IH]; intros pos H; cbn [search_from].
  - reflexivity.
  - rewrite run_tag_pattern. cbn [tag_free] in H.
    apply andb_true_iff in H. destruct H as [Hc Hs].
    apply negb_true_iff in Hc. rewrite Hc. exact (IH _ Hs).
Qed.

Lemma single_spaced_collapse (s : string) (b : bool) :
  single_spaced (collapse s b) b = true.
Proof.
  revert b. induction s as [|c s IH]; intros b; cbn [collapse]; [reflexivity|].
  destruct (isspace c) eqn:E.
  - destruct b; [apply IH|]. cbn [single_spaced]. rewrite IH. reflexivity.
  - cbn [single_spaced]. rewrite E. apply IH.
Qed.

Lemma single_spaced_lstrip (s : string) (b : bool) :
  single_spaced s b = true -> single_spaced (lstrip s) false = true.
Proof.
  revert b. induction s as [|c s IH]; intros b; cbn [lstrip single_spaced]; [trivial|].
  destruct (isspace c) eqn:E.
  - intros H. apply andb_true_iff in H. exact (IH _ (proj2 H)).
  - cbn [single_spaced]. rewrite E. trivial.
Qed.

Lemma single_spaced_rstrip (s : string) (b : bool) :
  single_spaced s b = true -> single_spaced (rstrip s) b = true.
Proof.
  revert b. induction s as [|c s IH]; intros b; [trivial|].
  cbn [single_spaced rstrip]. destruct (isspace c) eqn:E.
  - intros H. apply andb_true_iff in H. destruct H as [Hc Hs]. specialize (IH _ Hs).
    destruct (rstrip s) as [|d r]; [reflexivity|].
    cbn [single_spaced] in *. rewrite E, Hc. exact IH.
  - intros H. specialize (IH _ H).
    destruct (rstrip s) as [|d r]; cbn [single_spaced] in *; rewrite E; [reflexivity|exact IH].
Qed.

Lemma single_spaced_fixed (s : string) (b : bool) :
  single_spaced s b = true -> collapse s b = s.
Proof.
  revert b. induction s as [|c s IH]; intros b; [trivial|].
  cbn [single_spaced collapse]. destruct (isspace c).
  - intros H. apply andb_true_iff in H. destruct H as [Hc Hs].
    apply andb_true_iff in Hc. destruct Hc as [Hc Hb].
    apply Ascii.eqb_eq in Hc. apply negb_true_iff in Hb. subst. rewrite (IH _ Hs).
    reflexivity.
  - intros H. rewrite (IH _ H). reflexivity.
Qed.

(** The three facts about the result of [clean_template_tags]. *)
Lemma clean_tag_free (text : string) : tag_free (clean_template_tags text) = true.
Proof.
  rewrite clean_template_tags_eq. unfold strip.
  apply tag_free_rstrip, tag_free_lstrip, tag_free_collapse, tag_free_strip_tags.
Qed.

Lemma clean_single_spaced (text : string) :
  single_spaced (clean_template_tags text) false = true.
Proof.
  rewrite clean_template_tags_eq. unfold strip.
  apply single_spaced_rstrip. eapply single_spaced_lstrip. apply single_spaced_collapse.
Qed.

Lemma clean_stripped (text : string) :
  strip (clean_template_tags text) = clean_template_tags text.
Proof. rewrite clean_template_tags_eq. apply strip_idempotent. Qed.

Lemma string_last (s : string) :
  s <> EmptyString -> exists a c, s = a ++ String c EmptyString.
Proof.
  induction s as [|c s IH]; [contradiction|]. intros _.
  destruct s as [|d s].
  - exists EmptyString, c. reflexivity.
  - destruct IH as (a & x & ->); [discriminate|]. exists (String c a), x. reflexivity.
Qed.

Lemma single_spaced_at (s : string) (p : bool) (a : string) (c : ascii) (b : string) :
  single_spaced s p = true ->
  s = a ++ String c b -> isspace c = true ->
  c = " "%char
  /\ (a = EmptyString -> p = false)
  /\ (forall a' x, a = a' ++ String x EmptyString -> isspace x = false)
  /\ (forall y b', b = String y b' -> isspace y = false).
Proof.
  revert s p. induction a as [|x a IH]; intros s p Hs -> Hc.
  - cbn [String.append single_spaced] in Hs. rewrite Hc in Hs.
    apply andb_true_iff in Hs. destruct Hs as [H1 Hb].
    apply andb_true_iff in H1. destruct H1 as [H1 Hp].
    apply Ascii.eqb_eq in H1. apply negb_true_iff in Hp.
    split; [exact H1|]. split; [intros _; exact Hp|]. split.
    + intros a' z E. destruct a'; discriminate E.
    + intros y b' ->. cbn [single_spaced] in Hb.
      destruct (isspace y); [|reflexivity].
      rewrite andb_false_r in Hb. discriminate Hb.
  - cbn [String.append single_spaced] in Hs.
    assert (Hrest : single_spaced (a ++ String c b) (isspace x) = true).
    { destruct (isspace x); [|exact Hs].
      apply andb_true_iff in Hs. exact (proj2 Hs). }
    destruct (IH _ _ Hrest eq_refl Hc) as (E & Hfirst & Hlast & Hnext).
    split; [exact E|]. split; [discriminate|]. split; [|exact Hnext].
    intros a' z Ea. destruct a as [|y a].
    + destruct a' as [|w a']; [|destruct a'; discriminate Ea].
      injection Ea as <-. apply Hfirst. reflexivity.
    + destruct a' as [|w a']; [discriminate Ea|].
      injection Ea as <- Ea. exact (Hlast _ _ Ea).
Qed.

(** X1. Cleaning a cleaned text changes nothing. *)
Theorem clean_template_tags_idempotent (text : string) :
  clean_template_tags (clean_template_tags text) = clean_template_tags text.
Proof.
  rewrite (clean_template_tags_eq (clean_template_tags text)).
  rewrite (tag_free_fixed _ (clean_tag_free text)).
  rewrite (single_spaced_fixed _ _ (clean_single_spaced text)).
  apply clean_stripped.
Qed.

(** X2. The tag pattern [<[^>]+>] is found nowhere in a cleaned text. *)
Theorem clean_template_tags_leaves_no_tag (text : string) :
  Re.search false tag_pattern (clean_template_tags text) = None.
Proof. apply tag_free_no_match, clean_tag_free. Qed.

(** X3. Every white-space character of a cleaned text is a space, with a
    character other than white space on each side of it: the text neither
    starts nor ends with white space, holds no tab or line break, and no two
    spaces in a row. *)
Theorem clean_template_tags_single_spaces (text : string)
        (a : string) (c : ascii) (b : string) :
  clean_template_tags text = a ++ String c b ->
  isspace c = true ->
  c = " "%char
  /\ (exists a' x, a = a' ++ String x EmptyString /\ isspace x = false)
  /\ (exists y b', b = String y b' /\ isspace y = false).
Proof.
  intros E Hc.
  destruct (single_spaced_at _ _ _ _ _ (clean_single_spaced text) E Hc)
    as (Hsp & _ & Hlast & Hnext).
  split; [exact Hsp|]. split.
  - destruct a as [|x a].
    + cbn [String.append] in E. rewrite <- clean_stripped in E.
      rewrite (strip_first _ _ _ E) in Hc. discriminate Hc.
    + destruct (string_last (String x a)) as (a' & z & Ea); [discriminate|].
      exists a', z. split; [exact Ea|exact (Hlast _ _ Ea)].
  - destruct b as [|y b'].
    + rewrite <- clean_stripped in E. unfold strip in E.
      rewrite (rstrip_last _ _ _ E) in Hc. discriminate Hc.
    + exists y, b'. split; [reflexivity|exact (Hnext _ _ eq_refl)].
Qed.

Lemma clean_template_tags_single_spaces_witness :
  " "%char = " "%char
  /\ (exists a' x, "Hello" = a' ++ String x EmptyString /\ isspace x = false)
  /\ (exists y b', "world" = String y b' /\ isspace y = false).
Proof.
  apply (clean_template_tags_single_spaces
           ("  <b>Hello</b> " ++ LF ++ " world ") "Hello" " " "world").
  - vm_compute. reflexivity.
  - reflexivity.
Defined.

(** X4. Cleaning never makes a text longer. *)
Theorem clean_template_tags_length (text : string) :
  String.length (clean_template_tags text) <= String.length text.
Proof.
  rewrite clean_template_tags_eq.
  pose proof (strip_length (collapse (strip_tags text false) false)).
  pose proof (collapse_length (strip_tags text false) false).
  pose proof (strip_tags_length text false). lia.
Qed.

(** *** Markers and tags *)

Lemma eqb_lower_char_lt (c : ascii) : Ascii.eqb (lower_char c) "<" = Ascii.eqb c "<".
Proof. destruct c as [[] [] [] [] [] [] [] []]; reflexivity. Qed.

Lemma eqb_lower_char_gt (c : ascii) : Ascii.eqb (lower_char c) ">" = Ascii.eqb c ">".
Proof. destruct c as [[] [] [] [] [] [] [] []]; reflexivity. Qed.

Lemma has_gt_lower (s : string) : has_char ">" (lower s) = has_char ">" s.
Proof.
  induction s as [|c s IH]; [reflexivity|].
  cbn [lower has_char]. rewrite eqb_lower_char_gt, IH. reflexivity.
Qed.

Lemma opens_tag_lower (s : string) : opens_tag (lower s) = opens_tag s.
Proof.
  destruct s as [|c s]; [reflexivity|].
  change (lower (String c s)) with (String (lower_char c) (lower s)).
  cbn [opens_tag]. rewrite eqb_lower_char_gt.
  change (String (lower_char c) (lower s)) with (lower (String c s)).
  rewrite has_gt_lower. reflexivity.
Qed.

Lemma tag_free_lower (s : string) : tag_free (lower s) = tag_free s.
Proof.
  induction s as [|c s IH]; [reflexivity|].
  cbn [lower tag_free]. rewrite eqb_lower_char_lt, opens_tag_lower, IH. reflexivity.
Qed.

Lemma tag_free_suffix (a s : string) : tag_free (a ++ s) = true -> tag_free s = true.
Proof.
  induction a as [|c a IH]; cbn [String.append tag_free]; [trivial|].
  intros H. apply andb_true_iff in H. exact (IH (proj2 H)).
Qed.

Lemma contains_split (p s : string) :
  contains p s = true -> exists a b, s = a ++ p ++ b.
Proof.
  unfold contains. induction s as [|c s IH]; cbn [find].
  - destruct (startswith p EmptyString) eqn:E; [|discriminate].
    intros _. destruct (Comparison.startswith_fold false p EmptyString E) as (w & Hw & Hf).
    cbn [fold] in Hf. subst w. exists EmptyString. eexists. exact Hw.
  - destruct (startswith p (String c s)) eqn:E.
    + intros _. destruct (Comparison.startswith_fold false p (String c s) E) as (w & Hw & Hf).
      cbn [fold] in Hf. subst w. exists EmptyString. eexists. exact Hw.
    + destruct (find p s); [|discriminate]. intros _.
      destruct (IH eq_refl) as (a & b & ->). exists (String c a), b. reflexivity.
Qed.

(** A text that holds a dialect marker, in whatever case, holds a tag. *)
Lemma marker_not_tag_free (text : string) (d : dialect) :
  has_marker text d = true -> tag_free text = false.
Proof.
  intros H. rewrite <- tag_free_lower. unfold has_marker in H.
  apply existsb_exists in H. destruct H as (m & Hm & Hc).
  destruct (contains_split _ _ Hc) as (a & b & E). rewrite E.
  destruct (tag_free (a ++ m ++ b)) eqn:T; [|reflexivity].
  apply tag_free_suffix in T.
  destruct d; cbn [markers In] in Hm;
    repeat match goal with
           | H : _ \/ _ |- _ => destruct H
           | H : False |- _ => destruct H
           end; subst m; cbn in T; discriminate T.
Qed.

(** X5. A text that cleaning leaves unchanged is returned unchanged by
    [extract_template_response]: such a text holds no dialect marker. *)
Theorem extract_fixes_clean_text (fromstring : string -> parse_result) (text : string) :
  clean_template_tags text = text ->
  extract_template_response fromstring text = Return text.
Proof.
  intros Hclean.
  assert (T : tag_free text = true) by (rewrite <- Hclean; apply clean_tag_free).
  assert (Hnone : forall d, has_marker text d = false).
  { intros d. destruct (has_marker text d) eqn:E; [|reflexivity].
    rewrite (marker_not_tag_free _ _ E) in T. discriminate T. }
  rewrite Dispatch.extract_template_response_eq.
  assert (D : dispatch text = Unrecognized).
  { unfold dispatch, priority. cbn [List.find]. rewrite !Hnone. reflexivity. }
  rewrite D. cbn [extractor]. rewrite Hclean. reflexivity.
Qed.

Lemma extract_fixes_clean_text_witness :
  extract_template_response xml_fromstring "2 > 1 and x <> y" = Return "2 > 1 and x <> y".
Proof.
  apply (extract_fixes_clean_text xml_fromstring "2 > 1 and x <> y").
  vm_compute. reflexivity.
Defined.

End Cleaning.

Module Fields.
Import PyStr Re ET PyVal TemplateUtils Spec.

Lemma lower_append (a b : string) : lower (a ++ b) = lower a ++ lower b.
Proof. induction a as [|c a IH]; cbn; congruence. Qed.

Lemma lower_length (s : string) : String.length (lower s) = String.length s.
Proof. induction s as [|c s IH]; cbn; congruence. Qed.

Lemma same_ci_length (a b : string) : same_ci a b -> String.length a = String.length b.
Proof.
  unfold same_ci. intros H. rewrite <- (lower_length a), <- (lower_length b), H.
  reflexivity.
Qed.

Lemma startswith_append (a b : string) : startswith a (a ++ b) = true.
Proof.
  induction a as [|c a IH]; cbn; [destruct b; reflexivity|].
  rewrite Ascii.eqb_refl. exact IH.
Qed.

Lemma drop_append (a b : string) : drop (String.length a) (a ++ b) = b.
Proof. induction a as [|c a IH]; cbn; [destruct b; reflexivity|exact IH]. Qed.

Lemma has_lt_lower (s : string) : has_char "<" (lower s) = has_char "<" s.
Proof.
  induction s as [|c s IH]; [reflexivity|].
  cbn [lower has_char]. rewrite Cleaning.eqb_lower_char_lt, IH. reflexivity.
Qed.

(** A literal that starts with [<] matches no text that starts otherwise,
    with or without [re.IGNORECASE]. *)
Lemma lit_lt_fails (icase : bool) (l : string) (x : ascii) (s : string) (g : groups) :
  Ascii.eqb x "<" = false -> run icase (Lit (String "<" l)) (String x s) g = [].
Proof.
  intros H. cbn [run].
  assert (E : startswith (fold icase (String "<" l)) (fold icase (String x s)) = false).
  { destruct icase; cbn [fold lower startswith].
    - change (lower_char "<") with "<"%char.
      rewrite Ascii.eqb_sym, Cleaning.eqb_lower_char_lt, H. reflexivity.
    - rewrite Ascii.eqb_sym, H. reflexivity. }
  rewrite E. reflexivity.
Qed.

Lemma lit_nil_fails (icase : bool) (l : string) (c : ascii) (g : groups) :
  run icase (Lit (String c l)) EmptyString g = [].
Proof. destruct icase; reflexivity. Qed.

(** A literal matches a text that starts with it, up to case under
    [re.IGNORECASE]. *)
Lemma lit_matches (l w s : string) (g : groups) :
  same_ci w l -> run true (Lit l) (w ++ s) g = [(s, g)].
Proof.
  intros H. cbn [run fold]. rewrite lower_append, H, startswith_append.
  rewrite <- (same_ci_length _ _ H), drop_append. reflexivity.
Qed.

(** The lazy group [(.*?)] followed by a literal that starts with [<] stops
    at the first [<]: when the literal is there, the first match captures
    the text before it. *)
Lemma lazy_group_head (n : nat) (l closing content post : string) (g : groups) :
  has_char "<" content = false ->
  same_ci closing (String "<" l) ->
  exists tl,
    run true (Group n (Rep AnyChar 0 false) >> Lit (String "<" l))%re
        (content ++ closing ++ post) g
    = (post, (n, content) :: g) :: tl.
Proof.
  intros Hc Hclose.
  set (R := content ++ closing ++ post).
  change (run true (Group n (Rep AnyChar 0 false) >> Lit (String "<" l))%re R g)
    with (flat_map (fun m => run true (Lit (String "<" l)) (fst m) (snd m))
            (map (fun m => (fst m,
                            (n, take (String.length R - String.length (fst m)) R) :: snd m))
                 (map (fun s' => (s', g)) (spans AnyChar R)))).
  assert (H : forall c1,
             has_char "<" c1 = false ->
             exists tl,
               flat_map (fun m => run true (Lit (String "<" l)) (fst m) (snd m))
                 (map (fun m => (fst m,
                                 (n, take (String.length R - String.length (fst m)) R) :: snd m))
                      (map (fun s' => (s', g)) (spans AnyChar (c1 ++ closing ++ post))))
               = (post, (n, take (String.length R - String.length (closing ++ post)) R) :: g)
                   :: tl).
  { induction c1 as [|x c1 IH]; intros H1.
    - cbn [String.append]. destruct (closing ++ post) as [|y r] eqn:E.
      + exfalso. pose proof (same_ci_length _ _ Hclose) as L.
        destruct closing; cbn in L, E; discriminate.
      + cbn [spans map flat_map fst snd]. rewrite <- E.
        rewrite (lit_matches _ _ _ _ Hclose). cbn [app]. eexists. reflexivity.
    - cbn [has_char] in H1. apply orb_false_iff in H1. destruct H1 as [Hx H1].
      cbn [String.append spans in_class map flat_map fst snd].
      rewrite (lit_lt_fails true l x _ _ Hx). cbn [app]. exact (IH H1). }
  destruct (H content Hc) as [tl Htl]. exists tl. fold R in Htl. rewrite Htl.
  unfold R. rewrite Comparison.length_append, Nat.add_sub, Comparison.take_append.
  reflexivity.
Qed.

(** The first match of a field pattern at the opening tag of a field whose
    content holds no [<]. *)
Lemma field_pattern_head (n : nat) (name opening content closing post : string)
      (g : groups) :
  has_char "<" content = false ->
  same_ci opening ("<" ++ name ++ ">") ->
  same_ci closing ("</" ++ name ++ ">") ->
  exists tl,
    run true (field_pattern n name) (opening ++ content ++ closing ++ post) g
    = (post, (n, content) :: g) :: tl.
Proof.
  intros Hc Hopen Hclose. unfold field_pattern.
  match goal with
  | |- context [ run true (?a >> ?r)%re ?s ?g' ] =>
      change (run true (a >> r)%re s g')
        with (flat_map (fun m => run true r (fst m) (snd m)) (run true a s g'))
  end.
  rewrite (lit_matches _ _ _ _ Hopen). cbn [flat_map fst snd]. rewrite app_nil_r.
  exact (lazy_group_head n _ closing content post g Hc Hclose).
Qed.

(** A pattern that starts with a literal matches nothing where the literal
    does not. *)
Lemma first_literal_fails (l : string) (r : regex) (s : string) (g : groups) :
  startswith (lower l) (lower s) = false -> run true (Lit l >> r) s g = [].
Proof. intros H. cbn [run fold]. rewrite H. reflexivity. Qed.

(** [re.search] passes over the text before the first occurrence of the
    literal that a pattern starts with. *)
Lemma search_skips_to_first (l : string) (r : regex) (pre s : string) (pos : nat) :
  find (lower l) (lower (pre ++ s)) = Some (String.length pre) ->
  search_from true (Lit l >> r) (pre ++ s) pos
  = search_from true (Lit l >> r) s (pos + String.length pre).
Proof.
  revert pos. induction pre as [|x pre IH]; intros pos H.
  - cbn. rewrite Nat.add_0_r. reflexivity.
  - cbn [String.append] in *.
    change (lower (String x (pre ++ s))) with (String (lower_char x) (lower (pre ++ s))) in H.
    cbn [find String.length] in H.
    destruct (startswith (lower l) (String (lower_char x) (lower (pre ++ s)))) eqn:E;
      [discriminate H|].
    destruct (find (lower l) (lower (pre ++ s))) as [k|] eqn:F; [|discriminate H].
    cbn [option_map] in H. injection H as ->.
    cbn [search_from String.length]. rewrite first_literal_fails by exact E.
    rewrite IH by reflexivity. f_equal. lia.
Qed.

(** A field pattern matches nowhere before the first [<]. *)
Lemma search_skips_plain_text (n : nat) (name pre s : string) (pos : nat) :
  has_char "<" pre = false ->
  search_from true (field_pattern n name) (pre ++ s) pos
  = search_from true (field_pattern n name) s (pos + String.length pre).
Proof.
  revert pos. induction pre as [|x pre IH]; intros pos H.
  - cbn. rewrite Nat.add_0_r. reflexivity.
  - cbn [has_char] in H. apply orb_false_iff in H. destruct H as [Hx H].
    cbn [String.append search_from String.length].
    assert (E : run true (field_pattern n name) (String x (pre ++ s)) [] = []).
    { unfold field_pattern. cbn [run]. 
      change (startswith (fold true ("<" ++ name ++ ">")) (fold true (String x (pre ++ s))))
        with (startswith (lower (String "<" (name ++ ">"))) (lower (String x (pre ++ s)))).
      cbn [lower startswith]. change (lower_char "<") with "<"%char.
      rewrite Ascii.eqb_sym, Cleaning.eqb_lower_char_lt, Hx. reflexivity. }
    rewrite E, IH by exact H. f_equal. lia.
Qed.

(** What [re.search] finds for a field pattern in a text whose first [<] is
    the opening tag of the field, the content of the field holding no [<]. *)
Lemma search_field (n : nat) (name pre opening content closing post : string) :
  has_char "<" pre = false ->
  has_char "<" content = false ->
  same_ci opening ("<" ++ name ++ ">") ->
  same_ci closing ("</" ++ name ++ ">") ->
  search true (field_pattern n name) (pre ++ opening ++ content ++ closing ++ post)
  = Some (MatchObject (String.length pre) post [(n, content)]).
Proof.
  intros Hpre Hc Hopen Hclose. unfold search.
  rewrite search_skips_plain_text by exact Hpre.
  destruct (field_pattern_head n name opening content closing post [] Hc Hopen Hclose)
    as [tl Htl].
  destruct (opening ++ content ++ closing ++ post) as [|y r] eqn:E.
  - exfalso. pose proof (same_ci_length _ _ Hopen) as L.
    destruct opening; cbn in L, E; discriminate.
  - cbn [search_from]. rewrite Htl. reflexivity.
Qed.

(** What [re.search] finds for a field pattern when the first occurrence of
    the opening tag opens a field whose content holds no [<]. *)
Lemma search_field_first (n : nat) (name pre opening content closing post : string) :
  find (lower ("<" ++ name ++ ">")) (lower (pre ++ opening ++ content ++ closing ++ post))
  = Some (String.length pre) ->
  has_char "<" content = false ->
  same_ci opening ("<" ++ name ++ ">") ->
  same_ci closing ("</" ++ name ++ ">") ->
  search true (field_pattern n name) (pre ++ opening ++ content ++ closing ++ post)
  = Some (MatchObject (String.length pre) post [(n, content)]).
Proof.
  intros Hfind Hc Hopen Hclose. unfold search.
  destruct (field_pattern_head n name opening content closing post [] Hc Hopen Hclose)
    as [tl Htl].
  unfold field_pattern in *. rewrite search_skips_to_first by exact Hfind.
  destruct (opening ++ content ++ closing ++ post) as [|y r] eqn:E;
    cbn [search_from]; rewrite Htl; reflexivity.
Qed.

Lemma contains_cons (p : string) (c : ascii) (s : string) :
  contains p (String c s) = startswith p (String c s) || contains p s.
Proof.
  unfold contains. cbn [find]. destruct (startswith p (String c s)); [reflexivity|].
  destruct (find p s); reflexivity.
Qed.

Lemma contains_nil (p : string) : contains p EmptyString = startswith p EmptyString.
Proof. unfold contains. cbn [find]. destruct (startswith p EmptyString); reflexivity. Qed.

(** [re.search] finds nothing for a field pattern in a text without the
    opening tag, whatever the case. *)
Lemma search_field_absent (n : nat) (name text : string) :
  contains (lower ("<" ++ name ++ ">")) (lower text) = false ->
  search true (field_pattern n name) text = None.
Proof.
  unfold search. generalize 0 as pos.
  induction text as [|c text IH]; intros pos H.
  - rewrite contains_nil in H. cbn [search_from]. unfold field_pattern.
    cbn [run fold]. change (lower EmptyString) with EmptyString. rewrite H. reflexivity.
  - change (lower (String c text)) with (String (lower_char c) (lower text)) in H.
    rewrite contains_cons in H. apply orb_false_iff in H. destruct H as [H1 H2].
    cbn [search_from]. unfold field_pattern at 1. cbn [run fold].
    change (lower (String c text)) with (String (lower_char c) (lower text)).
    rewrite H1. cbn [flat_map]. exact (IH _ H2).
Qed.

(** A marker is not found inside text without [<]. *)
Lemma contains_plain (m a s : string) :
  has_char "<" a = false ->
  contains (String "<" m) (a ++ s) = contains (String "<" m) s.
Proof.
  induction a as [|x a IH]; intros H; [reflexivity|].
  cbn [has_char] in H. apply orb_false_iff in H. destruct H as [Hx H].
  cbn [String.append]. rewrite contains_cons. cbn [startswith].
  rewrite Ascii.eqb_sym, Hx. cbn [andb orb]. exact (IH H).
Qed.

Lemma contains_plain_end (m a : string) :
  has_char "<" a = false -> contains (String "<" m) a = false.
Proof.
  intros H. pose proof (contains_plain m a EmptyString H) as E.
  assert (A : a ++ EmptyString = a) by (clear; induction a; cbn; congruence).
  rewrite A in E. rewrite E. reflexivity.
Qed.

(** In a text whose only [<] are the first characters of two tags, a marker
    can only be found at one of the two. *)
Lemma contains_two_tags (m pre t1 content t2 post : string) :
  has_char "<" pre = false -> has_char "<" t1 = false ->
  has_char "<" content = false -> has_char "<" t2 = false ->
  has_char "<" post = false ->
  contains (String "<" m) (pre ++ String "<" t1 ++ content ++ String "<" t2 ++ post)
  = startswith (String "<" m) (String "<" t1 ++ content ++ String "<" t2 ++ post)
    || startswith (String "<" m) (String "<" t2 ++ post).
Proof.
  intros Hpre H1 Hc H2 Hpost.
  rewrite contains_plain by exact Hpre.
  cbn [String.append]. rewrite contains_cons. f_equal.
  rewrite contains_plain by exact H1. rewrite contains_plain by exact Hc.
  cbn [String.append]. rewrite contains_cons.
  rewrite contains_plain by exact H2. rewrite (contains_plain_end _ _ Hpost).
  apply orb_false_r.
Qed.

Lemma extract_synthesis_answer (pre opening content closing post : string) :
  has_char "<" pre = false ->
  has_char "<" content = false ->
  same_ci opening "<ANSWER>" ->
  same_ci closing "</ANSWER>" ->
  extract_synthesis_template (pre ++ opening ++ content ++ closing ++ post)
  = strip content.
Proof.
  intros Hpre Hc Hopen Hclose. unfold extract_synthesis_template.
  rewrite (search_field 1 "ANSWER" pre opening content closing post Hpre Hc Hopen Hclose).
  reflexivity.
Qed.

(** X6. [extract_synthesis_template] recovers the content of the answer
    field that the first answer tag of the text opens, trimmed, whatever the
    case of the tags and whatever comes before the field, when the content
    holds no [<]. *)
Theorem synthesis_answer_round_trip (pre opening content closing post : string) :
  find "<answer>" (lower (pre ++ opening ++ content ++ closing ++ post))
  = Some (String.length pre) ->
  has_char "<" content = false ->
  same_ci opening "<ANSWER>" ->
  same_ci closing "</ANSWER>" ->
  extract_synthesis_template (pre ++ opening ++ content ++ closing ++ post)
  = strip content.
Proof.
  intros Hfind Hc Hopen Hclose. unfold extract_synthesis_template.
  rewrite (search_field_first 1 "ANSWER" pre opening content closing post
             Hfind Hc Hopen Hclose).
  reflexivity.
Qed.

Lemma synthesis_answer_round_trip_witness :
  extract_synthesis_template
    ("<RESPONSE_START>" ++ "<ANSWER>" ++ "Total spending was $1.2M. " ++ "</answer>"
     ++ "</RESPONSE_START>")
  = strip "Total spending was $1.2M. ".
Proof.
  apply (synthesis_answer_round_trip "<RESPONSE_START>" "<ANSWER>"
           "Total spending was $1.2M. " "</answer>" "</RESPONSE_START>"); reflexivity.
Defined.

(** X7. Without an answer tag, [extract_synthesis_template] recovers in the
    same way the content of the response field that the first response tag
    opens; and without a response tag either, it is [clean_template_tags]. *)
Theorem synthesis_without_answer (text : string) :
  contains "<answer>" (lower text) = false ->
  (forall pre opening content closing post,
      text = pre ++ opening ++ content ++ closing ++ post ->
      find "<response>" (lower text) = Some (String.length pre) ->
      has_char "<" content = false ->
      same_ci opening "<RESPONSE>" ->
      same_ci closing "</RESPONSE>" ->
      extract_synthesis_template text = strip content)
  /\ (contains "<response>" (lower text) = false ->
      extract_synthesis_template text = clean_template_tags text).
Proof.
  intros Hanswer. unfold extract_synthesis_template.
  rewrite (search_field_absent 1 "ANSWER" text Hanswer). split.
  - intros pre opening content closing post -> Hfind Hc Hopen Hclose.
    rewrite (search_field_first 1 "RESPONSE" pre opening content closing post
               Hfind Hc Hopen Hclose).
    reflexivity.
  - intros Hresponse. rewrite (search_field_absent 1 "RESPONSE" text Hresponse).
    reflexivity.
Qed.

Lemma synthesis_without_answer_witness :
  (forall pre opening content closing post,
      "<response_start><response> 42 </response>" = pre ++ opening ++ content ++ closing ++ post ->
      find "<response>" (lower "<response_start><response> 42 </response>")
      = Some (String.length pre) ->
      has_char "<" content = false ->
      same_ci opening "<RESPONSE>" ->
      same_ci closing "</RESPONSE>" ->
      extract_synthesis_template "<response_start><response> 42 </response>" = strip content)
  /\ (contains "<response>" (lower "<response_start><response> 42 </response>") = false ->
      extract_synthesis_template "<response_start><response> 42 </response>"
      = clean_template_tags "<response_start><response> 42 </response>").
Proof.
  apply (synthesis_without_answer "<response_start><response> 42 </response>").
  reflexivity.
Defined.

(** The response field of the witness is found. *)
Example response_field_extracted :
  extract_synthesis_template "<response_start><response> 42 </response>" = "42".
Proof. vm_compute. reflexivity. Qed.

Section WithParser.
Variable fromstring : string -> parse_result.

(** X8. Through [extract_template_response]: a text whose only [<] are those
    of the two tags of an answer field is extracted as the content of the
    field, trimmed. *)
Theorem answer_field_extracted (pre opening content closing post : string) :
  has_char "<" pre = false ->
  has_char "<" content = false ->
  has_char "<" post = false ->
  same_ci opening "<ANSWER>" ->
  same_ci closing "</ANSWER>" ->
  extract_template_response fromstring (pre ++ opening ++ content ++ closing ++ post)
  = Return (strip content).
Proof.
  intros Hpre Hc Hpost Hopen Hclose.
  pose proof (extract_synthesis_answer pre opening content closing post
                Hpre Hc Hopen Hclose) as Hsyn.
  rewrite Dispatch.extract_template_response_eq, Dispatch.dispatch_eq. cbv zeta.
  rewrite !lower_append. unfold same_ci in Hopen, Hclose.
  change (lower "<ANSWER>") with "<answer>" in Hopen.
  change (lower "</ANSWER>") with "</answer>" in Hclose.
  rewrite Hopen, Hclose.
  rewrite <- has_lt_lower in Hpre, Hc, Hpost.
  rewrite !(contains_two_tags _ (lower pre) "answer>" (lower content) "/answer>" (lower post))
    by (assumption || reflexivity).
  cbn [startswith String.append Ascii.eqb Bool.eqb andb orb].
  cbn [extractor]. f_equal. exact Hsyn.
Qed.

(** X9. In the same way a text whose only [<] are those of the two tags of
    an insufficient-data field is extracted as the content of the field,
    trimmed. *)
Theorem insufficient_data_extracted (pre opening content closing post : string) :
  has_char "<" pre = false ->
  has_char "<" content = false ->
  has_char "<" post = false ->
  same_ci opening "<insufficient_data>" ->
  same_ci closing "</insufficient_data>" ->
  extract_template_response fromstring (pre ++ opening ++ content ++ closing ++ post)
  = Return (strip content).
Proof.
  intros Hpre Hc Hpost Hopen Hclose.
  pose proof (search_field 1 "insufficient_data" pre opening content closing post
                Hpre Hc Hopen Hclose) as Hsearch.
  rewrite Dispatch.extract_template_response_eq, Dispatch.dispatch_eq. cbv zeta.
  rewrite !lower_append. unfold same_ci in Hopen, Hclose.
  change (lower "<insufficient_data>") with "<insufficient_data>" in Hopen.
  change (lower "</insufficient_data>") with "</insufficient_data>" in Hclose.
  rewrite Hopen, Hclose.
  rewrite <- has_lt_lower in Hpre, Hc, Hpost.
  rewrite !(contains_two_tags _ (lower pre) "insufficient_data>" (lower content)
                              "/insufficient_data>" (lower post))
    by (assumption || reflexivity).
  cbn [startswith String.append Ascii.eqb Bool.eqb andb orb].
  cbn [extractor]. unfold extract_insufficient_data. rewrite Hsearch. reflexivity.
Qed.

End WithParser.

Lemma answer_field_extracted_witness :
  extract_template_response xml_fromstring
    ("Here you go: " ++ "<answer>" ++ " 42 vendors " ++ "</ANSWER>" ++ " Thanks.")
  = Return (strip " 42 vendors ").
Proof.
  apply (answer_field_extracted xml_fromstring "Here you go: " "<answer>" " 42 vendors "
           "</ANSWER>" " Thanks."); reflexivity.
Defined.

Lemma insufficient_data_extracted_witness :
  extract_template_response xml_fromstring
    (EmptyString ++ "<INSUFFICIENT_DATA>" ++ " Only one vendor found. "
       ++ "</INSUFFICIENT_DATA>" ++ EmptyString)
  = Return (strip " Only one vendor found. ").
Proof.
  apply (insufficient_data_extracted xml_fromstring EmptyString "<INSUFFICIENT_DATA>"
           " Only one vendor found. " "</INSUFFICIENT_DATA>" EmptyString); reflexivity.
Defined.

End Fields.

Module Outcomes.
Import PyStr Re ET PyVal TemplateUtils Spec.

Lemma mapM_raises {A B : Type} (f : A -> result B) (l : list A) (a : A) :
  In a l -> f a = Raise AttributeError -> mapM f l = Raise AttributeError.
Proof.
  intros Hin Ha. induction l as [|b l IH]; [destruct Hin|].
  cbn [mapM]. destruct (f b) as [y|e] eqn:E.
  - destruct Hin as [->|Hin]; [congruence|].
    cbn [bind]. rewrite (IH Hin). reflexivity.
  - destruct e. reflexivity.
Qed.

Lemma In_enumerate {A : Type} (l : list A) (start : nat) (a : A) :
  In a l -> exists i, In (i, a) (enumerate start l).
Proof.
  revert start. induction l as [|b l IH]; intros start H; [destruct H|].
  destruct H as [->|H].
  - exists start. left. reflexivity.
  - destruct (IH (S start) H) as [i Hi]. exists i. right. exact Hi.
Qed.

Lemma text_strip_raises (e : Element) : ET.text e = None -> text_strip e = Raise AttributeError.
Proof. unfold text_strip. intros ->. reflexivity. Qed.

Section WithParser.
Variable fromstring : string -> parse_result.

(** X10. When the statistical block parses, [extract_statistical_template]
    returns if every element at [findings/finding] and at
    [recommendations/recommendation] has a text, and raises
    [AttributeError] if one of them has none. *)
Theorem statistical_raises_on_missing_text (text : string) (root : Element) :
  fromstring (slice_from_find "<statistical_analysis>" text) = Parsed root ->
  (Forall (fun e => ET.text e <> None) (findall ["findings"; "finding"] root) ->
   Forall (fun e => ET.text e <> None) (findall ["recommendations"; "recommendation"] root) ->
   exists s, extract_statistical_template fromstring text = Return s)
  /\ (forall e,
        In e (findall ["findings"; "finding"] root)
        \/ In e (findall ["recommendations"; "recommendation"] root) ->
        ET.text e = None ->
        extract_statistical_template fromstring text = Raise AttributeError).
Proof.
  intros Hparse. split.
  - intros Hf Hr. exact (Dispatch.statistical_returns fromstring text root Hparse Hf Hr).
  - intros e Hin He. unfold extract_statistical_template. rewrite Hparse. cbv zeta.
    pose proof (text_strip_raises e He) as Hraise.
    destruct Hin as [Hin|Hin].
    + destruct (In_enumerate _ 1 e Hin) as [i Hi].
      destruct (findall ["findings"; "finding"] root) as [|f fs] eqn:Ef; [destruct Hin|].
      rewrite (mapM_raises _ _ (i, e) Hi); [reflexivity|].
      cbn [snd]. rewrite Hraise. reflexivity.
    + match goal with
      | |- bind ?m _ = _ => destruct m as [result2|[]]; [|reflexivity]
      end.
      cbn [bind].
      destruct (findall ["recommendations"; "recommendation"] root) as [|r rs] eqn:Er;
        [destruct Hin|].
      rewrite (mapM_raises _ _ e Hin); [reflexivity|].
      rewrite Hraise. reflexivity.
Qed.

End WithParser.

Lemma statistical_raises_on_missing_text_witness :
  (Forall (fun e => ET.text e <> None)
          (findall ["findings"; "finding"]
             (Elem "statistical_analysis" None
                [Elem "recommendations" None [Elem "recommendation" None [] None] None] None)) ->
   Forall (fun e => ET.text e <> None)
          (findall ["recommendations"; "recommendation"]
             (Elem "statistical_analysis" None
                [Elem "recommendations" None [Elem "recommendation" None [] None] None] None)) ->
   exists s,
     extract_statistical_template xml_fromstring
       "<statistical_analysis><recommendations><recommendation/></recommendations></statistical_analysis>"
     = Return s)
  /\ (forall e,
        In e (findall ["findings"; "finding"]
                (Elem "statistical_analysis" None
                   [Elem "recommendations" None [Elem "recommendation" None [] None] None] None))
        \/ In e (findall ["recommendations"; "recommendation"]
                   (Elem "statistical_analysis" None
                      [Elem "recommendations" None [Elem "recommendation" None [] None] None]
                      None)) ->
        ET.text e = None ->
        extract_statistical_template xml_fromstring
          "<statistical_analysis><recommendations><recommendation/></recommendations></statistical_analysis>"
        = Raise AttributeError).
Proof.
  apply (statistical_raises_on_missing_text xml_fromstring
           "<statistical_analysis><recommendations><recommendation/></recommendations></statistical_analysis>").
  vm_compute. reflexivity.
Defined.

Lemma of_Z_nonempty (z : Z) : of_Z z <> EmptyString.
Proof.
  unfold of_Z. destruct (Z.to_int z) as [d|d]; cbn; destruct d; discriminate.
Qed.

Lemma str_nonempty (v : pyval) :
  v <> PNone -> v <> PStr EmptyString -> str v <> EmptyString.
Proof.
  intros H1 H2. destruct v as [ | b | z | s | l | d]; cbn [str repr].
  - contradiction.
  - destruct b; discriminate.
  - apply of_Z_nonempty.
  - intros ->. contradiction.
  - discriminate.
  - discriminate.
Qed.

Lemma first_truthy_truthy (d : list (string * pyval)) (keys : list string) (v : pyval) :
  first_truthy d keys = Some v -> truthy v = true.
Proof.
  induction keys as [|k keys IH]; cbn [first_truthy]; [discriminate|].
  unfold truthy_get. destruct (dict_get d k) as [w|]; [|exact IH].
  destruct (truthy w) eqn:E; [|exact IH]. intros [= <-]. exact E.
Qed.

Lemma group_strip_stripped (m : match_object) (n : nat) :
  strip (group_strip m n) = group_strip m n.
Proof.
  unfold group_strip. destruct (m_group m n); [apply Cleaning.strip_idempotent|reflexivity].
Qed.

Section WithParser.
Variable fromstring : string -> parse_result.

(** X11. The only responses that [extract_text_from_response] turns into
    the empty string are [None] and the empty string: from any other
    response it returns a text that is not empty, or raises. *)
Theorem extract_text_nonempty (response : pyval) (r : string) :
  response <> PNone -> response <> PStr EmptyString ->
  extract_text_from_response fromstring response = Return r ->
  r <> EmptyString.
Proof.
  revert r.
  induction response as [ | b | z | s | l _ | d IH] using pyval_nested_ind;
    intros r H1 H2 E.
  - contradiction.
  - cbn in E. injection E as <-. destruct b; discriminate.
  - cbn in E. injection E as <-. apply of_Z_nonempty.
  - cbn [extract_text_from_response] in E. unfold extract_text_from_str in E.
    assert (Hs : s <> EmptyString) by (intros ->; contradiction).
    destruct (contains "<" s && contains ">" s).
    + destruct (extract_template_response fromstring s) as [x|e]; [|discriminate E].
      cbn [bind] in E. injection E as <-.
      destruct (String.eqb x EmptyString) eqn:Ex; cbn [negb andb]; [exact Hs|].
      destruct (String.eqb x s); cbn [negb]; [exact Hs|].
      apply String.eqb_neq. exact Ex.
    + injection E as <-. exact Hs.
  - cbn in E. injection E as <-. discriminate.
  - rewrite ResponseFields.extract_text_dict_eq in E.
    destruct (first_truthy d preference_keys) as [v|] eqn:F.
    + destruct (ResponseFields.first_truthy_In _ _ _ F) as [k Hin].
      pose proof (first_truthy_truthy _ _ _ F) as Ht.
      rewrite Forall_forall in IH. apply (IH _ Hin r); [| |exact E].
      * intros Hv. cbn [snd] in Hv. rewrite Hv in Ht. discriminate Ht.
      * intros Hv. cbn [snd] in Hv. rewrite Hv in Ht. discriminate Ht.
    + injection E as <-. discriminate.
Qed.

(** X12. In the dialects that end in a single field or in the generic
    cleaning (synthesis, insufficient data, no marker), what
    [extract_template_response] returns neither starts nor ends with white
    space. *)
Theorem plain_dialects_return_trimmed_text (text : string) :
  dispatch text = Synthesis \/ dispatch text = InsufficientData
  \/ dispatch text = Unrecognized ->
  exists r, extract_template_response fromstring text = Return r /\ strip r = r.
Proof.
  intros H. rewrite Dispatch.extract_template_response_eq.
  destruct H as [-> | [-> | ->]]; cbn [extractor].
  - eexists. split; [reflexivity|]. unfold extract_synthesis_template.
    destruct (search true (field_pattern 1 "ANSWER") text);
      [apply group_strip_stripped|].
    destruct (search true (field_pattern 1 "RESPONSE") text);
      [apply group_strip_stripped|apply Cleaning.clean_stripped].
  - unfold extract_insufficient_data.
    destruct (search true (field_pattern 1 "insufficient_data") text);
      eexists; (split; [reflexivity|]);
      [apply group_strip_stripped|apply Cleaning.clean_stripped].
  - eexists. split; [reflexivity|apply Cleaning.clean_stripped].
Qed.

End WithParser.

Lemma extract_text_nonempty_witness : "<b></b>" <> EmptyString.
Proof.
  apply (extract_text_nonempty xml_fromstring (PStr "<b></b>") "<b></b>").
  - discriminate.
  - discriminate.
  - vm_compute. reflexivity.
Defined.

Lemma plain_dialects_return_trimmed_text_witness :
  exists r,
    extract_template_response xml_fromstring "<response_start>  Hello   there </response_start>"
    = Return r /\ strip r = r.
Proof.
  apply (plain_dialects_return_trimmed_text xml_fromstring
           "<response_start>  Hello   there </response_start>").
  left. vm_compute. reflexivity.
Defined.

End Outcomes.

Module ResponseList.
Import PyStr Re ET PyVal TemplateUtils Spec.

Lemma tail_of_refl (s : string) : tail_of s s.
Proof. exists EmptyString. reflexivity. Qed.

Lemma tail_of_trans (a b c : string) : tail_of a b -> tail_of b c -> tail_of a c.
Proof.
  intros [p ->] [q ->]. exists (q ++ p). symmetry. apply Comparison.append_assoc.
Qed.

Lemma tail_of_cons (c : ascii) (a s : string) : tail_of a s -> tail_of a (String c s).
Proof. intros [p ->]. exists (String c p). reflexivity. Qed.

Lemma lstrip_chars_tail (chars s : string) : tail_of (lstrip_chars chars s) s.
Proof.
  induction s as [|c s IH]; cbn [lstrip_chars]; [apply tail_of_refl|].
  destruct (has_char c chars); [apply tail_of_cons, IH|apply tail_of_refl].
Qed.

Lemma lstrip_tail (s : string) : tail_of (lstrip s) s.
Proof.
  induction s as [|c s IH]; cbn [lstrip]; [apply tail_of_refl|].
  destruct (isspace c); [apply tail_of_cons, IH|apply tail_of_refl].
Qed.

Lemma skip_digits_tail (s : string) : tail_of (skip_digits s) s.
Proof.
  induction s as [|c s IH]; cbn [skip_digits]; [apply tail_of_refl|].
  destruct (isdigit c); [apply tail_of_cons, IH|apply tail_of_refl].
Qed.

Lemma strip_numbering_tail (s : string) : tail_of (strip_numbering s) s.
Proof.
  unfold strip_numbering. destruct s as [|c s]; [apply tail_of_refl|].
  destruct (isdigit c); [|apply tail_of_refl].
  pose proof (skip_digits_tail (String c s)) as H.
  destruct (skip_digits (String c s)) as [|p rest]; [apply tail_of_refl|].
  destruct (Ascii.eqb p "." || Ascii.eqb p ")"); [|apply tail_of_refl].
  eapply tail_of_trans; [apply lstrip_tail|].
  eapply tail_of_trans; [|exact H]. exists (String p EmptyString). reflexivity.
Qed.

Lemma strip_bullet_tail (s : string) : tail_of (strip_bullet s) s.
Proof.
  unfold strip_bullet.
  eapply tail_of_trans; [apply strip_numbering_tail|].
  eapply tail_of_trans; [apply lstrip_chars_tail|].
  eapply tail_of_trans; [apply lstrip_chars_tail|]. apply lstrip_chars_tail.
Qed.

Lemma has_char_append (c : ascii) (a b : string) :
  has_char c (a ++ b) = has_char c a || has_char c b.
Proof.
  induction a as [|x a IH]; [reflexivity|].
  cbn [String.append has_char]. rewrite IH. apply orb_assoc.
Qed.

Lemma has_char_tail (c : ascii) (item line : string) :
  tail_of item line -> has_char c item = true -> has_char c line = true.
Proof. intros [p ->] H. rewrite has_char_append, H. apply orb_true_r. Qed.

Lemma has_char_rstrip (c : ascii) (s : string) :
  has_char c (rstrip s) = true -> has_char c s = true.
Proof.
  induction s as [|x s IH]; cbn [rstrip has_char]; [trivial|].
  destruct (rstrip s) as [|d r].
  - destruct (isspace x); cbn [has_char]; [discriminate|].
    rewrite orb_false_r. intros ->. reflexivity.
  - cbn [has_char] in *. intros H. apply orb_true_iff in H. destruct H as [H|H].
    + rewrite H. reflexivity.
    + rewrite (IH H). apply orb_true_r.
Qed.

Lemma has_char_strip (c : ascii) (s : string) :
  has_char c (strip s) = true -> has_char c s = true.
Proof.
  unfold strip. intros H.
  exact (has_char_tail c _ _ (lstrip_tail s) (has_char_rstrip c _ H)).
Qed.

Lemma split_lines_no_line_feed (s line : string) :
  In line (split_lines s) -> has_char (ascii_of_nat 10) line = false.
Proof.
  revert line. induction s as [|c s IH]; intros line H; cbn [split_lines] in H.
  - destruct H as [<-|[]]. reflexivity.
  - destruct (Ascii.eqb c (ascii_of_nat 10)) eqn:E.
    + destruct H as [<-|H]; [reflexivity|exact (IH _ H)].
    + destruct (split_lines s) as [|l ls].
      * destruct H as [<-|[]]. cbn [has_char]. rewrite E. reflexivity.
      * destruct H as [<-|H].
        -- cbn [has_char]. rewrite E. apply IH. left. reflexivity.
        -- apply IH. right. exact H.
Qed.

Lemma lstrip_chars_first (chars s : string) (c : ascii) (r : string) :
  lstrip_chars chars s = String c r -> has_char c chars = false.
Proof.
  induction s as [|x s IH]; cbn [lstrip_chars]; [discriminate|].
  destruct (has_char x chars) eqn:E; [exact IH|]. intros [= <- <-]. exact E.
Qed.

Lemma strip_bullet_first (s : string) (c : ascii) (r : string) :
  strip_bullet s = String c r -> c <> " "%char.
Proof.
  unfold strip_bullet.
  set (line := lstrip_chars " " (lstrip_chars "* " (lstrip_chars "- " s))).
  assert (Hline : forall x y, line = String x y -> x <> " "%char).
  { intros x y E ->. apply lstrip_chars_first in E. discriminate E. }
  unfold strip_numbering. destruct line as [|x y] eqn:El; [discriminate|].
  destruct (isdigit x); [|intros [= <- <-]; exact (Hline _ _ eq_refl)].
  destruct (skip_digits (String x y)) as [|p rest];
    [intros [= <- <-]; exact (Hline _ _ eq_refl)|].
  destruct (Ascii.eqb p "." || Ascii.eqb p ")");
    [|intros [= <- <-]; exact (Hline _ _ eq_refl)].
  intros E ->. apply Cleaning.lstrip_first in E. discriminate E.
Qed.

Section WithParser.
Variable fromstring : string -> parse_result.

(** X13. Every item that [format_llm_response_as_list] returns is what is
    left of a trimmed line of the extracted text once a prefix is removed:
    it is not empty, holds no line feed, does not start with a space and
    does not end with white space. *)
Theorem format_llm_response_items (response : pyval) (items : list string)
        (item : string) :
  format_llm_response_as_list fromstring response = Return items ->
  In item items ->
  item <> EmptyString
  /\ (exists text line,
        extract_text_from_response fromstring response = Return text
        /\ In line (split_lines text) /\ tail_of item (strip line))
  /\ has_char (ascii_of_nat 10) item = false
  /\ (forall c r, item = String c r -> c <> " "%char)
  /\ (forall a c, item = a ++ String c EmptyString -> isspace c = false).
Proof.
  unfold format_llm_response_as_list. intros E Hin.
  destruct (extract_text_from_response fromstring response) as [text|e];
    [|discriminate E].
  cbn [bind] in E.
  assert (E' : filter nonempty (map strip_bullet
                 (filter nonempty (map strip (split_lines text)))) = items
               \/ items = []).
  { destruct text; injection E as <-; [right|left]; reflexivity. }
  destruct E' as [E'|E']; [subst items|subst items; destruct Hin].
  apply filter_In in Hin. destruct Hin as [Hin Hne].
  apply in_map_iff in Hin. destruct Hin as (l0 & <- & Hl0).
  apply filter_In in Hl0. destruct Hl0 as [Hl0 _].
  apply in_map_iff in Hl0. destruct Hl0 as (line & <- & Hline).
  pose proof (strip_bullet_tail (strip line)) as Htail.
  split; [|split; [|split; [|split]]].
  - unfold nonempty in Hne. apply negb_true_iff, String.eqb_neq in Hne. exact Hne.
  - exists text, line. repeat split; assumption.
  - destruct (has_char (ascii_of_nat 10) (strip_bullet (strip line))) eqn:H; [|reflexivity].
    pose proof (has_char_strip _ _ (has_char_tail _ _ _ Htail H)) as H'.
    rewrite (split_lines_no_line_feed _ _ Hline) in H'. discriminate H'.
  - intros c r Ec. exact (strip_bullet_first _ _ _ Ec).
  - intros a c Ea. destruct Htail as [p Hp]. rewrite Ea in Hp.
    rewrite <- Comparison.append_assoc in Hp. unfold strip in Hp.
    exact (Cleaning.rstrip_last _ _ _ Hp).
Qed.

Lemma split_lines_plain (x : string) :
  has_char (ascii_of_nat 10) x = false -> split_lines x = [x].
Proof.
  induction x as [|c x IH]; [reflexivity|].
  cbn [has_char split_lines]. intros H. apply orb_false_iff in H. destruct H as [Hc H].
  rewrite Hc, (IH H). reflexivity.
Qed.

Lemma split_lines_append (x rest : string) :
  has_char (ascii_of_nat 10) x = false ->
  split_lines (x ++ LF ++ rest) = x :: split_lines rest.
Proof.
  induction x as [|c x IH]; [reflexivity|].
  cbn [has_char String.append split_lines]. intros H.
  apply orb_false_iff in H. destruct H as [Hc H].
  rewrite Hc, (IH H). reflexivity.
Qed.

Lemma split_lines_join (items : list string) :
  items <> [] ->
  Forall (fun x => has_char (ascii_of_nat 10) x = false) items ->
  split_lines (join LF items) = items.
Proof.
  intros Hne H. induction H as [|x l Hx Hl IH]; [contradiction|].
  destruct l as [|y l].
  - cbn [join]. apply split_lines_plain. exact Hx.
  - change (join LF (x :: y :: l)) with (x ++ LF ++ join LF (y :: l)).
    rewrite (split_lines_append _ _ Hx), IH; [reflexivity|discriminate].
Qed.

Lemma has_lt_join (items : list string) :
  Forall (fun x => has_char "<" x = false) items -> has_char "<" (join LF items) = false.
Proof.
  induction 1 as [|x l Hx Hl IH]; [reflexivity|].
  destruct l as [|y l]; [exact Hx|].
  change (join LF (x :: y :: l)) with (x ++ LF ++ join LF (y :: l)).
  rewrite !has_char_append, Hx, IH. reflexivity.
Qed.

Lemma contains_char (c : ascii) (s : string) :
  contains (String c EmptyString) s = has_char c s.
Proof.
  induction s as [|x s IH]; [reflexivity|].
  rewrite Fields.contains_cons, IH. cbn [startswith has_char].
  rewrite Ascii.eqb_sym. destruct s; rewrite andb_true_r; reflexivity.
Qed.

Lemma filter_map_fixed (f : string -> string) (items : list string) :
  Forall (fun x => f x = x /\ x <> EmptyString) items ->
  filter nonempty (map f items) = items.
Proof.
  induction 1 as [|x l [Hf Hx] _ IH]; [reflexivity|].
  cbn [map filter]. rewrite Hf, IH. unfold nonempty.
  apply String.eqb_neq in Hx. rewrite Hx. reflexivity.
Qed.

Lemma join_nonempty (x : string) (l : list string) :
  x <> EmptyString -> join LF (x :: l) <> EmptyString.
Proof.
  intros Hx. destruct l as [|y l]; [exact Hx|].
  change (join LF (x :: y :: l)) with (x ++ LF ++ join LF (y :: l)).
  destruct x; [contradiction|discriminate].
Qed.

(** X17. A list of plain items joined by line feeds comes back as the same
    list: this holds when no item is empty or holds a line feed or a [<],
    and each is left unchanged by [strip] and by the removal of a bullet or
    a number. *)
Theorem format_llm_response_round_trip (items : list string) :
  items <> [] ->
  Forall (fun x => x <> EmptyString
                   /\ has_char (ascii_of_nat 10) x = false
                   /\ has_char "<" x = false
                   /\ strip x = x
                   /\ strip_bullet x = x) items ->
  format_llm_response_as_list fromstring (PStr (join LF items)) = Return items.
Proof.
  intros Hne H. unfold format_llm_response_as_list.
  cbn [extract_text_from_response]. unfold extract_text_from_str.
  assert (Hlt : contains "<" (join LF items) = false).
  { rewrite contains_char. apply has_lt_join.
    eapply Forall_impl; [|exact H]. cbn beta. intros x Hx. tauto. }
  rewrite Hlt. cbn [andb bind].
  destruct items as [|x l]; [contradiction|].
  destruct (join LF (x :: l)) as [|c t] eqn:E.
  - exfalso. apply (join_nonempty x l); [|exact E].
    inversion H as [|? ? Hx _]. tauto.
  - rewrite <- E. rewrite split_lines_join.
    + rewrite (filter_map_fixed strip), (filter_map_fixed strip_bullet); [reflexivity| |].
      * eapply Forall_impl; [|exact H]. cbn beta. intros y Hy. tauto.
      * eapply Forall_impl; [|exact H]. cbn beta. intros y Hy. tauto.
    + discriminate.
    + eapply Forall_impl; [|exact H]. cbn beta. intros y Hy. tauto.
Qed.

End WithParser.

Lemma format_llm_response_round_trip_witness :
  format_llm_response_as_list xml_fromstring
    (PStr (join LF ["Consolidate vendors"; "Review terms (annually)"; "x > 2"]))
  = Return ["Consolidate vendors"; "Review terms (annually)"; "x > 2"].
Proof.
  apply (format_llm_response_round_trip xml_fromstring
           ["Consolidate vendors"; "Review terms (annually)"; "x > 2"]).
  - discriminate.
  - repeat constructor; discriminate.
Defined.

Lemma format_llm_response_items_witness :
  "Consolidate vendors" <> EmptyString
  /\ (exists text line,
        extract_text_from_response xml_fromstring
          (PDict [("answer", PStr ("- 1. Consolidate vendors" ++ LF ++ "* Review terms"))])
        = Return text
        /\ In line (split_lines text) /\ tail_of "Consolidate vendors" (strip line))
  /\ has_char (ascii_of_nat 10) "Consolidate vendors" = false
  /\ (forall c r, "Consolidate vendors" = String c r -> c <> " "%char)
  /\ (forall a c, "Consolidate vendors" = a ++ String c EmptyString -> isspace c = false).
Proof.
  apply (format_llm_response_items xml_fromstring
           (PDict [("answer", PStr ("- 1. Consolidate vendors" ++ LF ++ "* Review terms"))])
           ["Consolidate vendors"; "Review terms"]).
  - vm_compute. reflexivity.
  - left. reflexivity.
Defined.

End ResponseList.

Module VendorBlocks.
Import PyStr Re ET PyVal TemplateUtils Spec Fields.

Lemma first_match_seq (r1 r2 : regex) (s : string) (g : groups)
      (s1 : string) (g1 : groups) (res : string * groups) :
  first_match r1 s g (s1, g1) -> first_match r2 s1 g1 res ->
  first_match (r1 >> r2) s g res.
Proof.
  intros [tl1 H1] [tl2 H2]. unfold first_match. cbn [run]. rewrite H1.
  cbn [flat_map fst snd]. rewrite H2. eexists. reflexivity.
Qed.

Lemma first_match_lit (l w s : string) (g : groups) :
  same_ci w l -> first_match (Lit l) (w ++ s) g (s, g).
Proof. intros H. exists []. apply Fields.lit_matches. exact H. Qed.

Lemma first_match_field (n : nat) (name opening content closing post : string)
      (g : groups) :
  has_char "<" content = false ->
  same_ci opening ("<" ++ name ++ ">") ->
  same_ci closing ("</" ++ name ++ ">") ->
  first_match (field_pattern n name) (opening ++ content ++ closing ++ post) g
              (post, (n, content) :: g).
Proof. apply Fields.field_pattern_head. Qed.

Lemma first_match_opt (r : regex) (s : string) (g : groups) (res : string * groups) :
  first_match r s g res -> first_match (Opt r) s g res.
Proof. intros [tl H]. unfold first_match. cbn [run]. rewrite H. eexists. reflexivity. Qed.

Lemma first_match_opt_skip (r : regex) (s : string) (g : groups) :
  run true r s g = [] -> first_match (Opt r) s g (s, g).
Proof. intros H. unfold first_match. cbn [run]. rewrite H. eexists. reflexivity. Qed.

Lemma lstrip_blank (w s : string) : blank w -> lstrip (w ++ s) = lstrip s.
Proof.
  unfold blank. induction w as [|c w IH]; intros H; [reflexivity|].
  cbn [all_chars] in H. apply andb_true_iff in H. destruct H as [Hc H].
  cbn [String.append lstrip]. rewrite Hc. exact (IH H).
Qed.

(** The greedy [\s*] first takes all the white space there is. *)
Lemma first_match_ws (w s : string) (g : groups) :
  blank w -> lstrip s = s -> first_match ws (w ++ s) g (s, g).
Proof.
  intros Hw Hs. unfold first_match, ws. cbn [run skipn].
  destruct (Cleaning.spans_split Space (w ++ s)) as (init & -> & _ & _).
  rewrite rev_app_distr. cbn [rev app map].
  rewrite Cleaning.skip_space, (lstrip_blank _ _ Hw), Hs. eexists. reflexivity.
Qed.

Lemma blank_append (a b : string) : blank a -> blank b -> blank (a ++ b).
Proof.
  unfold blank. induction a as [|c a IH]; intros Ha Hb; [exact Hb|].
  cbn [String.append all_chars] in *. apply andb_true_iff in Ha. destruct Ha as [Hc Ha].
  rewrite Hc. exact (IH Ha Hb).
Qed.

Lemma blank_nil : blank EmptyString.
Proof. reflexivity. Qed.

(** A text equal to a tag up to case starts with [<]. *)
Lemma same_ci_lt (w l : string) :
  same_ci w (String "<" l) -> exists w', w = String "<" w'.
Proof.
  unfold same_ci. destruct w as [|c w]; [discriminate|].
  cbn [lower]. intros [= Hc _]. exists w. f_equal.
  pose proof (Cleaning.eqb_lower_char_lt c) as E. rewrite Hc in E.
  change (lower_char "<") with "<"%char in E. cbn in E.
  symmetry in E. apply Ascii.eqb_eq in E. exact E.
Qed.

Lemma lstrip_tag (w l s : string) : same_ci w (String "<" l) -> lstrip (w ++ s) = w ++ s.
Proof. intros H. destruct (same_ci_lt _ _ H) as [w' ->]. reflexivity. Qed.

Lemma field_fails (n : nat) (name s : string) (g : groups) :
  startswith (lower ("<" ++ name ++ ">")) (lower s) = false ->
  run true (field_pattern n name) s g = [].
Proof. intros H. unfold field_pattern. apply first_literal_fails. exact H. Qed.

Ltac next_ws B H :=
  eapply first_match_seq;
  [ apply first_match_ws; [exact B | eapply lstrip_tag; exact H] | ].

Ltac next_field Hc Ho Hcl :=
  eapply first_match_seq;
  [ apply first_match_field; [exact Hc | exact Ho | exact Hcl] | ].

Ltac next_opt_field Hc Ho Hcl :=
  eapply first_match_seq;
  [ apply first_match_opt, first_match_field; [exact Hc | exact Ho | exact Hcl] | ].

Ltac tag_mismatch w H :=
  apply field_fails; rewrite (Fields.lower_append w); unfold same_ci in H; rewrite H;
  reflexivity.

(** The first match of the vendor pattern at a vendor block whose fields
    hold no [<]. *)
Lemma vendor_pattern_first_match (i : nat) (block post name performance : string)
      (strengths concerns : option string) :
  vendor_block i name performance strengths concerns block ->
  has_char "<" name = false ->
  has_char "<" performance = false ->
  (forall x, strengths = Some x -> has_char "<" x = false) ->
  (forall x, concerns = Some x -> has_char "<" x = false) ->
  exists G,
    first_match (vendor_pattern i) (block ++ post) [] (post, G)
    /\ group G 1 = Some name /\ group G 2 = Some performance
    /\ group G 3 = strengths /\ group G 4 = concerns.
Proof.
  intros Hblock Hname Hperf Hstr Hcon.
  destruct Hblock as (opening & s1 & fname & s2 & fperf & s3 & fstr & s4 & fcon & s5
                      & closing & -> & Hopen & B1 & Fn & B2 & Fp & B3 & Fs & B4 & Fc
                      & B5 & Hclose).
  destruct Fn as (on & cn & -> & Hon & Hcn). destruct Fp as (op & cp & -> & Hop & Hcp).
  unfold vendor_pattern.
  destruct strengths as [str|], concerns as [con|]; cbn [optional_field] in Fs, Fc.
  - destruct Fs as (os & cs & -> & Hos & Hcs). destruct Fc as (oc & cc & -> & Hoc & Hcc).
    specialize (Hstr _ eq_refl). specialize (Hcon _ eq_refl).
    repeat rewrite Comparison.append_assoc.
    eexists. split.
    {
    eapply first_match_seq; [apply first_match_lit; exact Hopen|].
    next_ws B1 Hon. next_field Hname Hon Hcn.
    next_ws B2 Hop. next_field Hperf Hop Hcp.
    next_ws B3 Hos. next_opt_field Hstr Hos Hcs.
    next_ws B4 Hoc. next_opt_field Hcon Hoc Hcc.
    next_ws B5 Hclose. apply first_match_lit. exact Hclose. }
    repeat split; reflexivity.
  - destruct Fs as (os & cs & -> & Hos & Hcs). subst fcon.
    specialize (Hstr _ eq_refl).
    cbn [String.append]. repeat rewrite Comparison.append_assoc.
    eexists. split.
    {
    eapply first_match_seq; [apply first_match_lit; exact Hopen|].
    next_ws B1 Hon. next_field Hname Hon Hcn.
    next_ws B2 Hop. next_field Hperf Hop Hcp.
    next_ws B3 Hos. next_opt_field Hstr Hos Hcs.
    rewrite <- (Comparison.append_assoc s4 s5).
    next_ws (blank_append _ _ B4 B5) Hclose.
    eapply first_match_seq; [apply first_match_opt_skip; tag_mismatch closing Hclose|].
    eapply first_match_seq;
      [apply (first_match_ws EmptyString); [exact blank_nil|eapply lstrip_tag; exact Hclose]|].
    apply first_match_lit. exact Hclose. }
    repeat split; reflexivity.
  - subst fstr. destruct Fc as (oc & cc & -> & Hoc & Hcc).
    specialize (Hcon _ eq_refl).
    cbn [String.append]. repeat rewrite Comparison.append_assoc.
    eexists. split.
    {
    eapply first_match_seq; [apply first_match_lit; exact Hopen|].
    next_ws B1 Hon. next_field Hname Hon Hcn.
    next_ws B2 Hop. next_field Hperf Hop Hcp.
    rewrite <- (Comparison.append_assoc s3 s4).
    next_ws (blank_append _ _ B3 B4) Hoc.
    eapply first_match_seq; [apply first_match_opt_skip; tag_mismatch oc Hoc|].
    eapply first_match_seq;
      [apply (first_match_ws EmptyString); [exact blank_nil|eapply lstrip_tag; exact Hoc]|].
    next_opt_field Hcon Hoc Hcc.
    next_ws B5 Hclose. apply first_match_lit. exact Hclose. }
    repeat split; reflexivity.
  - subst fstr fcon.
    cbn [String.append]. repeat rewrite Comparison.append_assoc.
    eexists. split.
    {
    eapply first_match_seq; [apply first_match_lit; exact Hopen|].
    next_ws B1 Hon. next_field Hname Hon Hcn.
    next_ws B2 Hop. next_field Hperf Hop Hcp.
    rewrite <- (Comparison.append_assoc s4 s5), <- (Comparison.append_assoc s3 (s4 ++ s5)).
    next_ws (blank_append _ _ B3 (blank_append _ _ B4 B5)) Hclose.
    eapply first_match_seq; [apply first_match_opt_skip; tag_mismatch closing Hclose|].
    eapply first_match_seq;
      [apply (first_match_ws EmptyString); [exact blank_nil|eapply lstrip_tag; exact Hclose]|].
    eapply first_match_seq; [apply first_match_opt_skip; tag_mismatch closing Hclose|].
    eapply first_match_seq;
      [apply (first_match_ws EmptyString); [exact blank_nil|eapply lstrip_tag; exact Hclose]|].
    apply first_match_lit. exact Hclose. }
    repeat split; reflexivity.
Qed.

Lemma search_from_found (r : regex) (s rest : string) (g : groups)
      (tl : list (string * groups)) (pos : nat) :
  run true r s [] = (rest, g) :: tl ->
  search_from true r s pos = Some (MatchObject pos rest g).
Proof. intros H. destruct s; cbn [search_from]; rewrite H; reflexivity. Qed.

(** X14. A vendor block whose fields hold no [<], placed where the opening
    tag of its number first occurs in the text, gives the entry of its
    fields: the name and the performance trimmed, then the strengths and the
    concerns trimmed, or their defaults when the field is missing or
    empty. *)
Theorem vendor_block_round_trip (i : nat) (pre block post name performance : string)
        (strengths concerns : option string) :
  find (lower ("<VENDOR" ++ of_nat i ++ ">")) (lower (pre ++ block ++ post))
  = Some (String.length pre) ->
  vendor_block i name performance strengths concerns block ->
  has_char "<" name = false ->
  has_char "<" performance = false ->
  (forall x, strengths = Some x -> has_char "<" x = false) ->
  (forall x, concerns = Some x -> has_char "<" x = false) ->
  vendor_lines (pre ++ block ++ post) i
  = vendor_entry name performance strengths concerns.
Proof.
  intros Hpre Hblock Hname Hperf Hstr Hcon.
  destruct (vendor_pattern_first_match i block post name performance strengths concerns
              Hblock Hname Hperf Hstr Hcon) as (G & [tl Hrun] & G1 & G2 & G3 & G4).
  unfold vendor_lines, search. unfold vendor_pattern in *.
  rewrite search_skips_to_first by exact Hpre.
  rewrite (search_from_found _ _ _ _ _ _ Hrun).
  unfold vendor_entry, group_strip, group_strip_or, m_group. cbn [m_groups].
  rewrite G1, G2, G3, G4. reflexivity.
Qed.

Lemma vendor_block_round_trip_witness :
  vendor_lines
    (("<COMPARISON_START><SUMMARY>DELL INC has higher total spending.</SUMMARY>" ++ LF)
     ++ ("<vendor2>" ++ " " ++ "<NAME> DELL INC </NAME>" ++ EmptyString
         ++ "<Performance>Total spending: $1500.00</Performance>" ++ LF ++ EmptyString
         ++ EmptyString ++ "<CONCERNS>late deliveries</CONCERNS>" ++ EmptyString
         ++ "</VENDOR2>")
     ++ "</COMPARISON_START>") 2
  = vendor_entry " DELL INC " "Total spending: $1500.00" None (Some "late deliveries").
Proof.
  apply (vendor_block_round_trip 2
           ("<COMPARISON_START><SUMMARY>DELL INC has higher total spending.</SUMMARY>" ++ LF)
           _ "</COMPARISON_START>"
           " DELL INC " "Total spending: $1500.00" None (Some "late deliveries")).
  - vm_compute. reflexivity.
  - exists "<vendor2>", " ", "<NAME> DELL INC </NAME>", EmptyString,
      "<Performance>Total spending: $1500.00</Performance>", LF, EmptyString,
      EmptyString, "<CONCERNS>late deliveries</CONCERNS>", EmptyString, "</VENDOR2>".
    repeat split.
    + exists "<NAME>", "</NAME>". repeat split.
    + exists "<Performance>", "</Performance>". repeat split.
    + exists "<CONCERNS>", "</CONCERNS>". repeat split.
  - reflexivity.
  - reflexivity.
  - discriminate.
  - intros x [= <-]. reflexivity.
Defined.

Lemma startswith_prefix (a b s : string) :
  startswith (a ++ b) s = true -> startswith a s = true.
Proof.
  revert s. induction a as [|c a IH]; intros s H; [destruct s; reflexivity|].
  destruct s as [|d s]; [discriminate H|].
  cbn [String.append startswith] in *. apply andb_true_iff in H. destruct H as [Hc H].
  rewrite Hc. exact (IH _ H).
Qed.

Lemma contains_longer (a b s : string) :
  contains a s = false -> contains (a ++ b) s = false.
Proof.
  induction s as [|c s IH].
  - rewrite !Fields.contains_nil. intros H.
    destruct (startswith (a ++ b) EmptyString) eqn:E; [|reflexivity].
    rewrite (startswith_prefix _ _ _ E) in H. discriminate H.
  - rewrite !Fields.contains_cons. intros H. apply orb_false_iff in H. destruct H as [H1 H2].
    rewrite (IH H2), orb_false_r.
    destruct (startswith (a ++ b) (String c s)) eqn:E; [|reflexivity].
    rewrite (startswith_prefix _ _ _ E) in H1. discriminate H1.
Qed.

(** [re.search] finds nothing for a pattern that starts with a literal in a
    text that does not hold the literal, whatever the case. *)
Lemma search_first_literal_absent (l : string) (r : regex) (text : string) :
  contains (lower l) (lower text) = false ->
  search true (Lit l >> r) text = None.
Proof.
  unfold search. generalize 0 as pos.
  induction text as [|c text IH]; intros pos H.
  - rewrite Fields.contains_nil in H. cbn [search_from].
    rewrite first_literal_fails by exact H. reflexivity.
  - change (lower (String c text)) with (String (lower_char c) (lower text)) in H.
    rewrite Fields.contains_cons in H. apply orb_false_iff in H. destruct H as [H1 H2].
    cbn [search_from]. rewrite first_literal_fails by exact H1. exact (IH _ H2).
Qed.

(** X15. A text without a summary tag, without any vendor tag and without a
    recommendation tag, whatever the case, is handed by
    [extract_comparison_template] to [clean_template_tags]. *)
Theorem comparison_falls_back_to_cleaning (text : string) :
  contains "<summary>" (lower text) = false ->
  contains "<vendor" (lower text) = false ->
  contains "<recommendation>" (lower text) = false ->
  extract_comparison_template text = clean_template_tags text.
Proof.
  intros Hs Hv Hr. unfold extract_comparison_template. cbv zeta.
  unfold field_pattern.
  rewrite (search_first_literal_absent ("<" ++ "SUMMARY" ++ ">") _ text Hs).
  rewrite (search_first_literal_absent ("<" ++ "RECOMMENDATION" ++ ">") _ text Hr).
  assert (V : vendor_section text = []).
  { unfold vendor_section. apply Cleaning.flat_map_nil. intros i _.
    unfold vendor_lines, vendor_pattern.
    rewrite search_first_literal_absent; [reflexivity|].
    rewrite Fields.lower_append. change (lower "<VENDOR") with "<vendor".
    apply contains_longer. exact Hv. }
  rewrite V. reflexivity.
Qed.

Lemma comparison_falls_back_to_cleaning_witness :
  extract_comparison_template "<comparison_start> Nothing   to compare </comparison_start>"
  = clean_template_tags "<comparison_start> Nothing   to compare </comparison_start>".
Proof.
  apply (comparison_falls_back_to_cleaning
           "<comparison_start> Nothing   to compare </comparison_start>"); reflexivity.
Defined.

End VendorBlocks.

Module VendorEntries.
Import PyStr Re ET PyVal TemplateUtils Spec Fields VendorBlocks.



(** The same text through the extractor: the block numbered 11 leaves no
    entry. *)
Example vendor_ten_and_eleven :
  extract_comparison_template
    ("<COMPARISON_START><vendor11><name>A</name><performance>p</performance></vendor11>"
     ++ ("<Vendor10>" ++ LF ++ "<NAME>DELL INC</NAME>" ++ " "
         ++ "<PERFORMANCE>Total spending: $1500.00</PERFORMANCE>" ++ LF ++ "</VENDOR10>")
     ++ "</COMPARISON_START>")
  = "**DELL INC**" ++ LF ++ "Performance: Total spending: $1500.00" ++ LF
    ++ "Strengths: Not specified" ++ LF ++ "Concerns: None identified" ++ LF.
Proof. vm_compute. reflexivity. Qed.

End VendorEntries.
